(** * Gerzeny's dashboard (app.py): a shallow embedding and its properties

    The program reads two CSV files into pandas frames, keeps the rows whose
    coordinates are valid, and draws them with folium inside a streamlit
    page.  This file embeds the functions of [app.py] one by one

      - [validate_coordinates]
      - [parse_csv]
      - [popup_html] and [tooltip_html]
      - [add_layer]
      - [build_map]
      - [main]

    and states the properties of the written specification about them.

    Conventions of the embedding.

      - A Python exception is a value of [exn]; a computation that may raise
        has type [result A].
      - A float is a [num]: an exact rational, one of the two infinities, or
        NaN.  Rounding is not modelled.
      - A pandas frame is an ordered list of column labels and an ordered
        list of rows; a row is what [iterrows] yields, an ordered list of
        (label, value) pairs, where labels may repeat.
      - The text-to-number conversions of Python and pandas ([float] on a
        [str], [pd.to_numeric] on a [str]) belong to the libraries, not to
        the program: they are the two fields of the class [Conv], and every
        general theorem holds for every instance. *)

From Stdlib Require Import ZArith QArith Qreduction Lqa Bool List String
  Ascii Lia.
Import ListNotations.

Local Open Scope string_scope.
Local Open Scope list_scope.
Local Open Scope Z_scope.

Set Implicit Arguments.

(** ** Exceptions and results *)

Inductive exn : Type :=
| KeyError (key : string)
| TypeError
| ValueError
| OverflowError
| ParserError
| FileNotFoundError
| InvalidIndexError
| NotScalar.
(* [NotScalar]: the error a library raises where a sub-series, read under a
   label that occurs several times, is used as one value; [TypeError] or
   [ValueError] by library and version. *)

Inductive result (A : Type) : Type :=
| Ok (a : A)
| Raise (e : exn).

Arguments Ok {A} a.
Arguments Raise {A} e.

Definition bind {A B} (m : result A) (k : A -> result B) : result B :=
  match m with
  | Ok a => k a
  | Raise e => Raise e
  end.

Notation "x <- m ;; k" := (bind m (fun x => k))
  (at level 61, m at next level, right associativity).

(** [try: body except Exception: handler]. *)
Definition try_except {A} (body : result A) (handler : exn -> result A)
  : result A :=
  match body with
  | Ok a => Ok a
  | Raise e => handler e
  end.

Fixpoint mapM {A B} (f : A -> result B) (l : list A) : result (list B) :=
  match l with
  | [] => Ok []
  | a :: l' => b <- f a ;; bs <- mapM f l' ;; Ok (b :: bs)
  end.

Definition is_ok {A} (m : result A) : bool :=
  match m with Ok _ => true | Raise _ => false end.

(** ** Numbers *)

Inductive num : Type :=
| Fin (q : Q)
| PosInf
| NegInf
| NaN.

Definition num_leb (a b : num) : bool :=
  match a, b with
  | NaN, _ | _, NaN => false
  | NegInf, _ => true
  | _, PosInf => true
  | Fin p, Fin q => Qle_bool p q
  | _, _ => false
  end.

Definition num_of_Z (z : Z) : num := Fin (inject_Z z).

Definition isnan (x : num) : bool :=
  match x with NaN => true | _ => false end.

(** [lo <= x <= hi] on floats, with integer bounds. *)
Definition in_range (lo hi : Z) (x : num) : bool :=
  num_leb (num_of_Z lo) x && num_leb x (num_of_Z hi).

(** ** Python values *)

Inductive value : Type :=
| VNone
| VBool (b : bool)
| VInt (z : Z)
| VFloat (x : num)
| VStr (s : string).

(** ** Conversions owned by the libraries *)

Class Conv : Type := {
  (** [float(s)] for a [str]: [None] stands for [ValueError]. *)
  float_of_str : string -> option num;
  (** [pd.to_numeric(s, errors="coerce")] for one [str] cell. *)
  numeric_of_str : string -> num
}.

Section Conversions.
Context {conv : Conv}.

(** The largest [int] that [float()] still converts lies just below this
    bound; from it on Python raises [OverflowError]. *)
Definition float_int_bound : Z := 2 ^ 1024 - 2 ^ 970.

(** Python's [float(v)]. *)
Definition py_float (v : value) : result num :=
  match v with
  | VNone => Raise TypeError
  | VBool b => Ok (num_of_Z (if b then 1 else 0))
  | VInt z =>
      if Z.abs z <? float_int_bound then Ok (num_of_Z z)
      else Raise OverflowError
  | VFloat x => Ok x
  | VStr s =>
      match float_of_str s with
      | Some x => Ok x
      | None => Raise ValueError
      end
  end.

(** [pd.to_numeric(series, errors="coerce")], cell by cell. *)
Definition to_numeric (v : value) : num :=
  match v with
  | VNone => NaN
  | VBool b => num_of_Z (if b then 1 else 0)
  | VInt z => num_of_Z z
  | VFloat x => x
  | VStr s => numeric_of_str s
  end.

(** *** [validate_coordinates] (app.py, lines 27-32) *)
Definition validate_coordinates (lat lon : value) : result bool :=
  try_except
    (lat <- py_float lat ;;
     lon <- py_float lon ;;
     Ok (in_range (-90) 90 lat && in_range (-180) 180 lon))
    (fun _ => Ok false).

End Conversions.

(** ** Strings *)

(** [str.lower] on the letters A-Z.  A label is held as its UTF-8 bytes, and
    no byte of a multi-byte character is a letter, so this is how [lower]
    acts on the ASCII part of a label; what it does to the other characters
    never makes or breaks a match with the ASCII tokens of this program. *)
Definition lower_ascii (c : ascii) : ascii :=
  let n := N_of_ascii c in
  if ((65 <=? n) && (n <=? 90))%N then ascii_of_N (n + 32) else c.

Fixpoint lower (s : string) : string :=
  match s with
  | EmptyString => EmptyString
  | String c s' => String (lower_ascii c) (lower s')
  end.

(** [t in s] for two [str]. *)
Fixpoint contains (t s : string) : bool :=
  prefix t s
  || match s with
     | EmptyString => false
     | String _ s' => contains t s'
     end.

(** [any(t in s for t in tokens)]. *)
Definition any_in (tokens : list string) (s : string) : bool :=
  existsb (fun t => contains t s) tokens.

(** [s in names] for a list of [str]. *)
Definition mem (s : string) (names : list string) : bool :=
  existsb (String.eqb s) names.

Definition is_none {A} (o : option A) : bool :=
  match o with None => true | Some _ => false end.

(** ** Frames *)

Definition row : Type := list (string * value).

Record DataFrame : Type := {
  columns : list string;
  rows : list row
}.

(** [pd.DataFrame()]. *)
Definition empty_frame : DataFrame := {| columns := []; rows := [] |}.

(** [df.empty]: some axis has length zero. *)
Definition df_empty (df : DataFrame) : bool :=
  match columns df, rows df with
  | [], _ => true
  | _, [] => true
  | _, _ => false
  end.

Definition len (df : DataFrame) : Z := Z.of_nat (List.length (rows df)).

(** All values a row carries under the label [k], in order. *)
Definition values_at (r : row) (k : string) : list value :=
  map snd (filter (fun p => String.eqb (fst p) k) r).

(** The cell of a row under a column label.  [read_csv] makes labels unique
    and fills a field that a line lacks with NaN. *)
Definition cell (r : row) (k : string) : value :=
  match values_at r k with
  | v :: _ => v
  | [] => VFloat NaN
  end.

(** [k in row]: membership among the labels. *)
Definition has_label (r : row) (k : string) : bool :=
  existsb (fun p => String.eqb (fst p) k) r.

(** What [row[k]] yields: a scalar under a label that occurs once, a
    sub-series under a label that occurs several times. *)
Inductive item : Type :=
| Scalar (v : value)
| Several (vs : list value).

Definition row_getitem (r : row) (k : string) : result item :=
  match values_at r k with
  | [] => Raise (KeyError k)
  | [v] => Ok (Scalar v)
  | vs => Ok (Several vs)
  end.

(** [row.get(k, None)]. *)
Definition row_get (r : row) (k : string) : option item :=
  match row_getitem r k with
  | Ok (Scalar VNone) => None
  | Ok it => Some it
  | Raise _ => None
  end.

(** [pd.notna(v)] on a scalar. *)
Definition notna (v : value) : bool :=
  match v with
  | VNone => false
  | VFloat NaN => false
  | _ => true
  end.

(** [series.between(lo, hi)] on one cell of a numeric series. *)
Definition between (lo hi : Z) (v : value) : bool :=
  match v with
  | VFloat x => in_range lo hi x
  | VInt z => in_range lo hi (num_of_Z z)
  | _ => false
  end.

Fixpoint row_set (r : row) (k : string) (v : value) : row :=
  match r with
  | [] => [(k, v)]
  | (k', v') :: r' =>
      if String.eqb k' k then (k, v) :: r' else (k', v') :: row_set r' k v
  end.

Definition add_label (cols : list string) (k : string) : list string :=
  if mem k cols then cols else cols ++ [k].

(** [df[k] = series], the series given row by row: an existing column is
    overwritten in place, a new one is appended. *)
Definition setitem (df : DataFrame) (k : string) (f : row -> value)
  : DataFrame :=
  {| columns := add_label (columns df) k;
     rows := map (fun r => row_set r k (f r)) (rows df) |}.

(** [df.loc[mask]]. *)
Definition loc (df : DataFrame) (mask : list bool) : DataFrame :=
  {| columns := columns df;
     rows := map fst (filter snd (combine (rows df) mask)) |}.

(** [mask.sum()]. *)
Definition mask_sum (mask : list bool) : Z :=
  Z.of_nat (List.length (filter (fun b : bool => b) mask)).

Definition rename_label (m : list (string * string)) (k : string) : string :=
  match find (fun p => String.eqb (fst p) k) m with
  | Some p => snd p
  | None => k
  end.

(** [df.rename(columns=m)]. *)
Definition rename (df : DataFrame) (m : list (string * string)) : DataFrame :=
  {| columns := map (rename_label m) (columns df);
     rows := map (map (fun p => (rename_label m (fst p), snd p))) (rows df) |}.

(** [df.drop(columns=ks, errors="ignore")]. *)
Definition drop (df : DataFrame) (ks : list string) : DataFrame :=
  {| columns := filter (fun c => negb (mem c ks)) (columns df);
     rows := map (filter (fun p => negb (mem (fst p) ks))) (rows df) |}.

Definition is_number (v : value) : bool :=
  match v with
  | VInt _ | VFloat _ => true
  | _ => false
  end.

(** [read_csv] gives a column a numeric dtype when every one of its cells is
    a number or NaN, and the dtype [object] when the frame has no row. *)
Definition numeric_column (df : DataFrame) (c : string) : bool :=
  negb (List.length (rows df) =? 0)%nat
  && forallb (fun r => is_number (cell r c)) (rows df).

(** [df.select_dtypes(include=[np.number]).columns.tolist()]. *)
Definition select_dtypes_number (df : DataFrame) : list string :=
  filter (numeric_column df) (columns df).

(** ** Files *)

Inductive file : Type :=
| Missing                       (* no file at the path *)
| Malformed                     (* a file that is not a CSV *)
| Csv (df : DataFrame).         (* a CSV, as [read_csv] parses it *)

(** [pd.read_csv(path)]. *)
Definition read_csv (f : file) : result DataFrame :=
  match f with
  | Missing => Raise FileNotFoundError
  | Malformed => Raise ParserError
  | Csv df => Ok df
  end.

(** [os.path.exists(path)]. *)
Definition path_exists (f : file) : bool :=
  match f with Missing => false | _ => true end.

(** ** The loader *)

(** The tuple [parse_csv] returns. *)
Record parsed : Type := {
  valid : DataFrame;
  valid_count : Z;
  invalid_count : Z;
  postal_col : option string;
  name_col : option string;
  lat_col : option string;
  lon_col : option string
}.

Definition lat_tokens : list string := ["lat"; "latitude"].
Definition lon_tokens : list string := ["lon"; "long"; "longitude"; "lng"].
Definition postal_tokens : list string :=
  ["postal"; "postal code"; "zip"; "zip code"; "zipcode"; "post_code";
   "pincode"; "zip_code"].
Definition name_labels : list string :=
  ["name"; "title"; "label"; "location_name"].

(** One turn of the loop [for c in df.columns] (lines 41-44) on the pair
    [(lat_col, lon_col)]. *)
Definition sniff_step (st : option string * option string) (c : string)
  : option string * option string :=
  let '(lat_col, lon_col) := st in
  let lc := lower c in
  let lat_col :=
    if is_none lat_col && any_in lat_tokens lc then Some c else lat_col in
  let lon_col :=
    if is_none lon_col && any_in lon_tokens lc then Some c else lon_col in
  (lat_col, lon_col).

(** Lines 40-50: the columns the loader takes as latitude and longitude,
    [None] where it gives up. *)
Definition detect_lat_lon (df : DataFrame) : option (string * string) :=
  match fold_left sniff_step (columns df) (None, None) with
  | (Some lat_col, Some lon_col) => Some (lat_col, lon_col)
  | _ =>
      match select_dtypes_number df with
      | n1 :: n2 :: _ => Some (n1, n2)
      | _ => None
      end
  end.

Section Loader.
Context {conv : Conv}.

(** The row mask of lines 56-59. *)
Definition coordinate_mask (r : row) : bool :=
  notna (cell r "__lat") && notna (cell r "__lon")
  && between (-90) 90 (cell r "__lat")
  && between (-180) 180 (cell r "__lon").

(** *** [parse_csv] (app.py, lines 34-71) *)
Definition parse_csv (path_or_buf : file) : result parsed :=
  df <- read_csv path_or_buf ;;
  match detect_lat_lon df with
  | None =>
      Ok {| valid := empty_frame; valid_count := 0; invalid_count := len df;
            postal_col := None; name_col := None;
            lat_col := None; lon_col := None |}
  | Some (lat_col, lon_col) =>
      let tmp := df in
      let tmp :=
        setitem tmp "__lat" (fun r => VFloat (to_numeric (cell r lat_col))) in
      let tmp :=
        setitem tmp "__lon" (fun r => VFloat (to_numeric (cell r lon_col))) in
      let mask := map coordinate_mask (rows tmp) in
      let valid := loc tmp mask in
      let valid :=
        rename valid [("__lat", "latitude"); ("__lon", "longitude")] in
      let valid := drop valid ["__lat"; "__lon"] in
      let postal_candidates :=
        filter (fun c => any_in postal_tokens (lower c)) (columns valid) in
      let postal_col := hd_error postal_candidates in
      let name_candidates :=
        filter (fun c => mem (lower c) name_labels) (columns valid) in
      let name_col := hd_error name_candidates in
      Ok {| valid := valid;
            valid_count := mask_sum mask;
            invalid_count := len df - mask_sum mask;
            postal_col := postal_col; name_col := name_col;
            lat_col := Some lat_col; lon_col := Some lon_col |}
  end.

End Loader.

(** A conversion of plain decimal text, [-12.5] and the like: an optional
    sign, digits, and an optional fraction; every other text is rejected.
    It is the instance of [Conv] the examples below are run with. *)
Definition digit_of (c : ascii) : option Z :=
  let n := N_of_ascii c in
  if ((48 <=? n) && (n <=? 57))%N then Some (Z.of_N (n - 48)) else None.

(** Reads [digits] with [acc] the digits read so far, [scale] the power of
    ten to divide by and [frac] telling whether the point was passed. *)
Fixpoint read_digits (s : string) (acc scale : Z) (frac seen : bool)
  : option Q :=
  match s with
  | EmptyString =>
      if seen then Some (Qred (Qmake acc (Z.to_pos scale))) else None
  | String c s' =>
      match digit_of c with
      | Some d =>
          read_digits s' (10 * acc + d) (if frac then 10 * scale else scale)
                      frac true
      | None =>
          if (Ascii.eqb c "."%char) && negb frac
          then read_digits s' acc scale true seen
          else None
      end
  end.

Definition read_decimal (s : string) : option num :=
  match s with
  | String "-"%char s' =>
      option_map (fun q => Fin (Qred (- q))) (read_digits s' 0 1 false false)
  | String "+"%char s' => option_map Fin (read_digits s' 0 1 false false)
  | _ => option_map Fin (read_digits s 0 1 false false)
  end.

Definition decimal_conv : Conv :=
  {| float_of_str := read_decimal;
     numeric_of_str := fun s =>
       match read_decimal s with Some x => x | None => NaN end |}.

(** ** Popups and tooltips *)

(** A piece of generated text: literal text, [str(x)] of what a row holds,
    or a float in the format [.6f]. *)
Inductive piece : Type :=
| Lit (s : string)
| Str (x : item)
| Fixed6 (x : num).

Definition html : Type := list piece.

(** [f"{x:.6f}"] for what [row[k]] yielded. *)
Definition format_6f (x : item) : result piece :=
  match x with
  | Scalar (VFloat f) => Ok (Fixed6 f)
  | Scalar (VInt z) => Ok (Fixed6 (num_of_Z z))
  | Scalar (VBool b) => Ok (Fixed6 (num_of_Z (if b then 1 else 0)))
  | Scalar (VStr _) => Raise ValueError
  | Scalar VNone => Raise TypeError
  | Several _ => Raise NotScalar
  end.

(** The truth of [pd.notna(row[k])] in an [if]: a sub-series has no truth
    value. *)
Definition notna_truth (x : item) : result bool :=
  match x with
  | Scalar v => Ok (notna v)
  | Several _ => Raise NotScalar
  end.

(** [k in row and pd.notna(row[k])]. *)
Definition present (r : row) (k : string) : result bool :=
  if has_label r k then x <- row_getitem r k ;; notna_truth x
  else Ok false.

(** [col and col in row and pd.notna(row[col])] for a column name that may
    be [None]. *)
Definition resolved_present (r : row) (col : option string) : result bool :=
  match col with
  | None => Ok false
  | Some "" => Ok false
  | Some k => present r k
  end.

(** The line [title value<br>] that a present field adds. *)
Definition field_line (title : string) (r : row) (k : string) : result html :=
  x <- row_getitem r k ;; Ok [Lit title; Str x; Lit "<br>"].

Definition optional_field (title : string) (r : row) (k : string)
  : result html :=
  b <- present r k ;;
  if b then field_line title r k else Ok [].

Definition resolved_field (title : string) (r : row) (col : option string)
  : result html :=
  b <- resolved_present r col ;;
  match b, col with
  | true, Some k => field_line title r k
  | _, _ => Ok []
  end.

(** *** [popup_html] (app.py, lines 73-85) *)
Definition popup_html (r : row) (postal_col name_col : option string)
  : result html :=
  let parts := [Lit "<div class='cluster-popup'>";
                Lit "<b>📍 Location Details</b><br>"] in
  name_part <- resolved_field "<b>Name:</b> " r name_col ;;
  let parts := parts ++ name_part in
  lat <- row_getitem r "Latitude" ;;
  lat <- format_6f lat ;;
  let parts := parts ++ [Lit "<b>Latitude:</b> "; lat; Lit "<br>"] in
  lon <- row_getitem r "Longitude" ;;
  lon <- format_6f lon ;;
  let parts := parts ++ [Lit "<b>Longitude:</b> "; lon; Lit "<br>"] in
  postal_part <- resolved_field "<b>Postal Code:</b> " r postal_col ;;
  let parts := parts ++ postal_part in
  state_part <- optional_field "<b>State:</b> " r "state" ;;
  let parts := parts ++ state_part in
  city_part <- optional_field "<b>City:</b> " r "city" ;;
  let parts := parts ++ city_part in
  address_part <- optional_field "<b>Address:</b> " r "address" ;;
  let parts := parts ++ address_part in
  Ok (parts ++ [Lit "</div>"]).

Section Rendering.
Context {conv : Conv}.

(** [float(x)] for what [row.get(k)] yielded. *)
Definition item_float (x : item) : result num :=
  match x with
  | Scalar v => py_float v
  | Several _ => Raise NotScalar
  end.

(** *** [tooltip_html] (app.py, lines 87-100) *)
Definition tooltip_html (r : row) (postal_col name_col : option string)
  : result html :=
  b <- resolved_present r name_col ;;
  name_line <-
    match b, name_col with
    | true, Some k =>
        x <- row_getitem r k ;; Ok [Lit "<b>"; Str x; Lit "</b><br>"]
    | _, _ => Ok []
    end ;;
  let lat_val := row_get r "latitude" in
  let lon_val := row_get r "longitude" in
  latlon_line <-
    match lat_val, lon_val with
    | Some lat, Some lon =>
        lat <- item_float lat ;;
        lon <- item_float lon ;;
        Ok [Lit "Latitude: "; Fixed6 lat; Lit ", Longitude: "; Fixed6 lon]
    | _, _ => Ok [Lit "Latitude: n/a, Longitude: n/a"]
    end ;;
  b <- resolved_present r postal_col ;;
  postal_line <-
    match b, postal_col with
    | true, Some k =>
        x <- row_getitem r k ;; Ok [Lit "<br>Postal Code: "; Str x]
    | _, _ => Ok []
    end ;;
  Ok (name_line ++ latlon_line ++ postal_line).

End Rendering.

(** ** Layers

    The folium objects, with the arguments that vary or that a property
    speaks of.  The arguments the program fixes once and for all (overlay
    and control flags, the sticky tooltip placed on top, the popup width,
    the home icon) are left out. *)

Record Marker : Type := {
  location : num * num;
  tooltip : html;
  popup : html;
  icon_color : string
}.

Record ClusterOptions : Type := {
  maxClusterRadius : Z;
  spiderfyOnMaxZoom : bool;
  showCoverageOnHover : bool;
  zoomToBoundsOnClick : bool
}.

Inductive child : Type :=
| FastMarkerCluster (data : list (list value)) (name : string)
| MarkerCluster (name : string) (options : ClusterOptions)
                (markers : list Marker).

Record FeatureGroup : Type := {
  group_name : string;
  children : list child
}.

(** The options of line 118. *)
Definition cluster_options : ClusterOptions :=
  {| maxClusterRadius := 50; spiderfyOnMaxZoom := true;
     showCoverageOnHover := true; zoomToBoundsOnClick := true |}.

(** [df[ks]] for a list of labels: [KeyError] on a label the frame lacks,
    else every column under one of the labels. *)
Definition select (df : DataFrame) (ks : list string) : result DataFrame :=
  match find (fun k => negb (mem k (columns df))) ks with
  | Some k => Raise (KeyError k)
  | None =>
      Ok {| columns :=
              flat_map (fun k => filter (String.eqb k) (columns df)) ks;
            rows :=
              map (fun r =>
                     flat_map (fun k => map (pair k) (values_at r k)) ks)
                  (rows df) |}
  end.

(** [df.to_numpy().tolist()]. *)
Definition to_list (df : DataFrame) : list (list value) :=
  map (map snd) (rows df).

Section Layers.
Context {conv : Conv}.

(** folium takes a coordinate that [float] converts and that is not NaN. *)
Definition coordinate (x : item) : result num :=
  match item_float x with
  | Ok f => if isnan f then Raise ValueError else Ok f
  | Raise _ => Raise ValueError
  end.

(** [folium.Marker([r["latitude"], r["longitude"]], tooltip=..., popup=...,
    icon=...)] of lines 122-127, its arguments evaluated left to right. *)
Definition marker (color : string) (postal_col name_col : option string)
           (r : row) : result Marker :=
  lat <- row_getitem r "latitude" ;;
  lon <- row_getitem r "longitude" ;;
  tip <- tooltip_html r postal_col name_col ;;
  pop <- popup_html r postal_col name_col ;;
  lat <- coordinate lat ;;
  lon <- coordinate lon ;;
  Ok {| location := (lat, lon); tooltip := tip; popup := pop;
        icon_color := color |}.

(** What [FastMarkerCluster] keeps of one point: folium checks the first
    two entries as it checks a marker's location, and keeps the others as
    they are; a point of fewer than two entries is refused. *)
Definition fast_point (pt : list value) : result (list value) :=
  match pt with
  | lat :: lon :: others =>
      lat <- coordinate (Scalar lat) ;;
      lon <- coordinate (Scalar lon) ;;
      Ok (VFloat lat :: VFloat lon :: others)
  | _ => Raise ValueError
  end.

(** *** [add_layer] (app.py, lines 102-128) *)
Definition add_layer (df : DataFrame) (color layer_name : string)
           (cluster fast : bool) (postal_col name_col : option string)
  : result FeatureGroup :=
  if df_empty df then
    Ok {| group_name := layer_name; children := [] |}
  else if cluster && fast then
    sel <- select df ["latitude"; "longitude"] ;;
    let pts := to_list sel in
    data <- mapM fast_point pts ;;
    Ok {| group_name := layer_name;
          children :=
            [FastMarkerCluster data (layer_name ++ " Fast")%string] |}
  else
    markers <- mapM (marker color postal_col name_col) (rows df) ;;
    Ok {| group_name := layer_name;
          children :=
            [MarkerCluster (layer_name ++ " Clusters")%string
                           cluster_options markers] |}.

End Layers.

(** ** The map *)

Inductive control : Type :=
| Layer (g : FeatureGroup)
| Fullscreen (position : string)
| LayerControl (collapsed : bool).

Record Map : Type := {
  center : num * num;
  zoom_start : Z;
  controls : list control
}.

(** [folium.Map(location=[lat, lon], zoom_start=z)]: NaN is refused. *)
Definition folium_Map (lat lon : num) (z : Z) : result Map :=
  if isnan lat || isnan lon then Raise ValueError
  else Ok {| center := (lat, lon); zoom_start := z; controls := [] |}.

(** [x.add_to(m)]. *)
Definition add_to (x : control) (m : Map) : Map :=
  {| center := center m; zoom_start := zoom_start m;
     controls := controls m ++ [x] |}.

Definition same_labels (a b : list string) : bool :=
  if list_eq_dec string_dec a b then true else false.

Definition unique_labels (l : list string) : bool :=
  (List.length (nodup string_dec l) =? List.length l)%nat.

(** [pd.concat(frames, ignore_index=True)]: the rows of the frames one after
    the other.  Frames with the same labels keep them; otherwise the labels
    are united in the order they come, which pandas refuses when a frame
    repeats a label.  A cell a frame lacks reads as NaN. *)
Definition pd_concat (frames : list DataFrame) : result DataFrame :=
  match frames with
  | [] => Raise ValueError
  | df :: rest =>
      if forallb (fun df' => same_labels (columns df') (columns df)) rest
      then Ok {| columns := columns df; rows := flat_map rows frames |}
      else if forallb (fun df' => unique_labels (columns df')) frames
      then Ok {| columns :=
                   fold_left
                     (fun acc df' => fold_left add_label (columns df') acc)
                     frames [];
                 rows := flat_map rows frames |}
      else Raise InvalidIndexError
  end.

Definition num_add (a b : num) : num :=
  match a, b with
  | NaN, _ | _, NaN => NaN
  | Fin p, Fin q => Fin (Qred (p + q))
  | PosInf, NegInf | NegInf, PosInf => NaN
  | PosInf, _ | _, PosInf => PosInf
  | NegInf, _ | _, NegInf => NegInf
  end.

Definition num_div (a : num) (n : nat) : num :=
  match a with
  | Fin p => Fin (Qred (p / inject_Z (Z.of_nat n)))
  | x => x
  end.

(** The number a cell counts as in a mean; text has none. *)
Definition as_number (v : value) : result num :=
  match v with
  | VNone => Ok NaN
  | VBool b => Ok (num_of_Z (if b then 1 else 0))
  | VInt z => Ok (num_of_Z z)
  | VFloat x => Ok x
  | VStr _ => Raise TypeError
  end.

(** [series.mean()]: NaN is skipped, and nothing left gives NaN. *)
Definition series_mean (vs : list value) : result num :=
  xs <- mapM as_number vs ;;
  match filter (fun x => negb (isnan x)) xs with
  | [] => Ok NaN
  | kept => Ok (num_div (fold_left num_add kept (Fin 0)) (List.length kept))
  end.

(** [df[c].mean()] as a coordinate.  Under a label that occurs several times
    pandas gives one mean per column, which is no coordinate. *)
Definition column_mean (df : DataFrame) (c : string) : result num :=
  match filter (String.eqb c) (columns df) with
  | [] => Raise (KeyError c)
  | [_] => series_mean (map (fun r => cell r c) (rows df))
  | _ => Raise NotScalar
  end.

Section Composer.
Context {conv : Conv}.

(** *** [build_map] (app.py, lines 130-147)

    The argument of [pd.concat] on lines 135-136 is the expression
    [[u] if not url_df.empty else [] + [s] if not store_df.empty else []].
    A conditional expression binds weaker than [+] and nests to the right,
    so Python reads it as
    [[u] if not url_df.empty else (([] + [s]) if not store_df.empty else [])]. *)
Definition build_map (url_df store_df : DataFrame) (cluster fast_csv : bool)
           (postal1 postal2 name1 name2 : option string) : result Map :=
  if df_empty url_df && df_empty store_df then
    folium_Map (num_of_Z 20) (num_of_Z 0) 2
  else
    frames <-
      (if negb (df_empty url_df) then
         u <- select url_df ["latitude"; "longitude"] ;; Ok [u]
       else if negb (df_empty store_df) then
         s <- select store_df ["latitude"; "longitude"] ;; Ok ([] ++ [s])
       else Ok []) ;;
    base <- pd_concat frames ;;
    lat <- column_mean base "latitude" ;;
    lon <- column_mean base "longitude" ;;
    m <- folium_Map lat lon 9 ;;
    l1 <- add_layer url_df "green" "URL Data (Green)" cluster fast_csv
                    postal1 name1 ;;
    let m := add_to (Layer l1) m in
    l2 <- add_layer store_df "blue" "Store Data (Blue)" cluster fast_csv
                    postal2 name2 ;;
    let m := add_to (Layer l2) m in
    let m := add_to (Fullscreen "topright") m in
    let m := add_to (LayerControl false) m in
    Ok m.

End Composer.

(** ** The page *)

(** What a widget shows. *)
Inductive shown : Type :=
| Text (s : string)
| Grouped (n : Z)               (* [f"{n:,}"] *)
| Float6 (x : num)              (* [f"{x:.6f}"] *)
| NUnique (vs : list value).    (* [series.nunique(dropna=True)] *)

(** The calls to streamlit, in the order the script makes them; a [with]
    block holds the calls made inside it.  A call is recorded with what the
    script passes to it.  Where that is a figure pandas computes from a
    series ([nunique], [value_counts().head(n)]), the series and [n] are
    recorded, not the figure: which texts are equal and how equal counts
    are ordered is left to pandas. *)
#[warnings="-register-all"]
Inductive event : Type :=
| Markdown (text : string)
| Sidebar (body : list event)
| Header (text : string)
| Checkbox (label : string) (value : bool)
| Warning (text : string)
| Column (i : nat) (body : list event)
| Metric (label : string) (v : shown)
| Spinner (text : string) (body : list event)
| StFolium (m : Map) (height : Z)
| BarChart (top : nat) (texts : list piece)
    (* [st.bar_chart(texts.value_counts().head(top))] *)
| Info (text : string)
| Expander (label : string) (body : list event)
| Write (valid_rows invalid_rows : Z)
    (* [f"✅ Valid: {ok:,} | ❌ Invalid: {bad:,}"] *)
| Dataframe (df : DataFrame).

(** A run of page code: the calls made, and how the code ended. *)
Definition ui (A : Type) : Type := (list event * result A)%type.

Definition ui_ret {A} (a : A) : ui A := ([], Ok a).

Definition ui_bind {A B} (m : ui A) (k : A -> ui B) : ui B :=
  match m with
  | (log, Ok a) => let '(log', r) := k a in (log ++ log', r)
  | (log, Raise e) => (log, Raise e)
  end.

Notation "x <~ m ;; k" := (ui_bind m (fun x => k))
  (at level 61, m at next level, right associativity).
Notation "m ;;; k" := (ui_bind m (fun _ => k))
  (at level 61, right associativity).

Definition emit (e : event) : ui unit := ([e], Ok tt).

Definition lift {A} (r : result A) : ui A := ([], r).

(** A [with] block. *)
Definition within {A} (wrap : list event -> event) (body : ui A) : ui A :=
  let '(log, r) := body in ([wrap log], r).

(** The text of line 151. *)
Definition main_header : string :=
  let q := String (ascii_of_nat 34) EmptyString in
  ("<h1 class=" ++ q ++ "main-header" ++ q
   ++ ">🌍 Gerzeny's Data — URL (Green) & Store (Blue)</h1>")%string.

Definition PATH_STORE_CSV : string := "Gerzeny_store.csv".
Definition PATH_URL_CSV : string := "Spoutro August 2025 1(in).csv".

(** The truth of a column name that may be [None]. *)
Definition truthy (o : option string) : bool :=
  match o with
  | None => false
  | Some s => negb (String.eqb s "")
  end.

(** [df[c]] read cell by cell. *)
Definition column_values (df : DataFrame) (c : string) : list value :=
  map (fun r => cell r c) (rows df).

(** [df.get(c)]: [None] where the frame has no such label. *)
Definition df_get (df : DataFrame) (c : string) : option DataFrame :=
  match select df [c] with
  | Ok sel => Some sel
  | Raise _ => None
  end.

(** [[s for s in [a, b] if s is not None]]. *)
Definition not_none {A} (l : list (option A)) : list A :=
  flat_map (fun o => match o with Some a => [a] | None => [] end) l.

(** [df.head(n)]. *)
Definition head (n : nat) (df : DataFrame) : DataFrame :=
  {| columns := columns df; rows := firstn n (rows df) |}.

(** The series a resolved postal column contributes (lines 203-204 and
    225-226). *)
Definition postal_series (postal : option string) (df : DataFrame)
  : list (list value) :=
  match postal with
  | Some c => if truthy postal && mem c (columns df)
              then [column_values df c] else []
  | None => []
  end.

(** [s.dropna().astype(str)] of lines 225-226: the text of every value
    of the series that is not null. *)
Definition dropna_astype_str (s : list value) : list piece :=
  map (fun v => Str (Scalar v)) (filter notna s).

(** Lines 189-198: the mean of one coordinate over both frames. *)
Definition average_metric (label c : string) (total : Z)
           (url_df store_df : DataFrame) : ui unit :=
  if total =? 0 then emit (Metric label (Text "—"))
  else
    all <~ lift (pd_concat (not_none [df_get url_df c; df_get store_df c])) ;;
    mean <~ lift (column_mean all c) ;;
    emit (Metric label (Float6 mean)).

(** Lines 237-248: the preview of one frame. *)
Definition preview (label empty_text : string) (df : DataFrame) (ok bad : Z)
  : ui unit :=
  within (Expander label)
    (if negb (df_empty df) then
       emit (Write ok bad) ;;;
       emit (Dataframe (head 25 df))
     else emit (Info empty_text)).

Section Page.
Context {conv : Conv}.

(** Lines 175-183: one of the two loads. *)
Definition load (path what : string) (fs : string -> file)
  : ui parsed :=
  if negb (String.eqb path "") && path_exists (fs path) then
    lift (parse_csv (fs path))
  else
    emit (Warning (what ++ " file not found at: " ++ path)%string) ;;;
    ui_ret {| valid := empty_frame; valid_count := 0; invalid_count := 0;
              postal_col := None; name_col := None;
              lat_col := None; lon_col := None |}.

(** *** [main] (app.py, lines 150-248)

    [fs] is the file system, [cluster] and [fast_csv] what the two
    checkboxes return. *)
Definition main (fs : string -> file) (cluster fast_csv : bool) : ui unit :=
  emit (Markdown main_header) ;;;
  within Sidebar
    (emit (Header "⚙️ Map Settings") ;;;
     emit (Checkbox "Cluster locations" cluster) ;;;
     emit (Checkbox "High-speed for large CSVs (FastMarkerCluster)"
                    fast_csv)) ;;;
  u <~ load PATH_URL_CSV "URL Data" fs ;;
  s <~ load PATH_STORE_CSV "Store Data" fs ;;
  let url_df := valid u in
  let store_df := valid s in
  let url_ok := valid_count u in
  let url_bad := invalid_count u in
  let st_ok := valid_count s in
  let st_bad := invalid_count s in
  let postal1 := postal_col u in
  let postal2 := postal_col s in
  let name1 := name_col u in
  let name2 := name_col s in
  let total := len url_df + len store_df in
  within (Column 1) (emit (Metric "Total Locations" (Grouped total))) ;;;
  within (Column 2)
    (average_metric "Avg Latitude" "latitude" total url_df store_df) ;;;
  within (Column 3)
    (average_metric "Avg Longitude" "longitude" total url_df store_df) ;;;
  within (Column 4)
    (if truthy postal1 || truthy postal2 then
       match postal_series postal1 url_df
             ++ postal_series postal2 store_df with
       | [] => emit (Metric "Unique Postal Codes" (Text "0"))
       | series_list =>
           emit (Metric "Unique Postal Codes"
                        (NUnique (List.concat series_list)))
       end
     else emit (Metric "Unique Postal Codes" (Text "Not found"))) ;;;
  emit (Markdown "### 📍 Locations") ;;;
  fmap <~ within (Spinner "Rendering map...")
            (lift (build_map url_df store_df cluster fast_csv
                             postal1 postal2 name1 name2)) ;;
  emit (StFolium fmap 640) ;;;
  emit (Markdown "### 🧭 Postal Code Summary") ;;;
  (if truthy postal1 || truthy postal2 then
     match map dropna_astype_str
               (postal_series postal1 url_df
                ++ postal_series postal2 store_df) with
     | [] => emit (Info "No postal codes detected in the provided CSVs.")
     | series => emit (BarChart 20 (List.concat series))
     end
   else
     emit (Info "No postal code column detected. Use a column like 'postal', 'zip', 'zipcode', 'post_code', or 'pincode'.")) ;;;
  preview "📊 URL Data (valid rows)" "No valid rows in URL Data."
          url_df url_ok url_bad ;;;
  preview "📊 Store Data (valid rows)" "No valid rows in Store Data."
          store_df st_ok st_bad.

End Page.

(** ** Notions the properties are stated with *)

(** What the loop of lines 41-44 leaves in a variable: its value when it was
    set before the loop, else what the loop found. *)
Definition first_set (a : option string) (found : option string)
  : option string :=
  match a with Some _ => a | None => found end.

Definition labels (r : row) : list string := map fst r.

(** Every row carries exactly the labels of the frame, in its order: the
    shape of a frame that [read_csv] returns. *)
Definition well_formed (df : DataFrame) : bool :=
  forallb (fun r => if list_eq_dec string_dec (labels r) (columns df)
                    then true else false)
          (rows df).

Section Coercion.
Context {conv : Conv}.

(** The two assignments of lines 54-55, seen on one row. *)
Definition coerce_row (lat_col lon_col : string) (r : row) : row :=
  let r := row_set r "__lat" (VFloat (to_numeric (cell r lat_col))) in
  row_set r "__lon" (VFloat (to_numeric (cell r lon_col))).

(** A row of the file survives: its coerced coordinates are in range. *)
Definition survives (lat_col lon_col : string) (r : row) : bool :=
  in_range (-90) 90 (to_numeric (cell r lat_col))
  && in_range (-180) 180 (to_numeric (cell r lon_col)).

(** A surviving row as the loader returns it when the file has no column
    of its scratch names. *)
Definition augmented (lat_col lon_col : string) (r : row) : row :=
  r ++ [("latitude", VFloat (to_numeric (cell r lat_col)));
        ("longitude", VFloat (to_numeric (cell r lon_col)))].

End Coercion.

(** Lines 61-62, seen on one row. *)
Definition canonical_row (r : row) : row :=
  filter (fun p => negb (mem (fst p) ["__lat"; "__lon"]))
         (map (fun p => (rename_label [("__lat", "latitude");
                                       ("__lon", "longitude")] (fst p),
                         snd p)) r).

(** The CSV of the specification's example: columns lat, lng, name and the
    rows (10, 20, A), (91, 20, B), (x, y, C).  A column that holds text
    somewhere is read as text everywhere. *)
Definition example_csv : DataFrame :=
  {| columns := ["lat"; "lng"; "name"];
     rows := [ [("lat", VStr "10"); ("lng", VStr "20"); ("name", VStr "A")];
               [("lat", VStr "91"); ("lng", VStr "20"); ("name", VStr "B")];
               [("lat", VStr "x"); ("lng", VStr "y"); ("name", VStr "C")] ] |}.

(** The record (A) of the example as the loader returns it. *)
Definition example_record : row :=
  [("lat", VStr "10"); ("lng", VStr "20"); ("name", VStr "A");
   ("latitude", VFloat (Fin 10)); ("longitude", VFloat (Fin 20))].

(** A CSV with the header [Latitude,Longitude] and one line. *)
Definition point_csv (lat lon : Z) : DataFrame :=
  {| columns := ["Latitude"; "Longitude"];
     rows := [ [("Latitude", VInt lat); ("Longitude", VInt lon)] ] |}.

(** The frame the loader returns for [point_csv lat lon]. *)
Definition point_layer (lat lon : Z) : DataFrame :=
  {| columns := ["Latitude"; "Longitude"; "latitude"; "longitude"];
     rows := [ [("Latitude", VInt lat); ("Longitude", VInt lon);
                ("latitude", VFloat (num_of_Z lat));
                ("longitude", VFloat (num_of_Z lon))] ] |}.

(** A CSV with the header [lat,latitude,lon] and the line [10,500,20]: a
    file that has a column of its own under the name the loader writes. *)
Definition shadowed_csv : DataFrame :=
  {| columns := ["lat"; "latitude"; "lon"];
     rows := [ [("lat", VInt 10); ("latitude", VInt 500);
                ("lon", VInt 20)] ] |}.

(** The centre as the specification words it: the mean latitude and the
    mean longitude over the records of all non-empty layers together. *)
Definition centroid_of_all (url_df store_df : DataFrame)
  : result (num * num) :=
  frames <- mapM (fun df => select df ["latitude"; "longitude"])
                 (filter (fun df => negb (df_empty df)) [url_df; store_df]) ;;
  base <- pd_concat frames ;;
  lat <- column_mean base "latitude" ;;
  lon <- column_mean base "longitude" ;;
  Ok (lat, lon).

(** A file system with the two files of the page and nothing else. *)
Definition files (url store : file) : string -> file :=
  fun path =>
    if String.eqb path PATH_URL_CSV then url
    else if String.eqb path PATH_STORE_CSV then store
    else Missing.

Definition is_expander (e : event) : bool :=
  match e with Expander _ _ => true | _ => false end.

(** A piece of page code that opens no expander. *)
Definition plain {A} (m : ui A) : Prop :=
  forall e, In e (fst m) -> is_expander e = false.

(** What the page shows before it loads a file, and the warning of a
    missing file. *)
Definition before_load (e : event) : Prop :=
  e = Markdown main_header \/ (exists b, e = Sidebar b)
  \/ exists t, e = Warning t.

(** The page went through: it ended without an error and drew the map. *)
Definition rendered (run : ui unit) : Prop :=
  snd run = Ok tt /\ exists m h, In (StFolium m h) (fst run).

(** ** Notions of the further properties *)

Section Passing.
Context {conv : Conv}.

(** [validate_coordinates] on the two numbers lines 54-55 write into a row,
    read as a boolean. *)
Definition passes (lat_col lon_col : string) (r : row) : bool :=
  let lat := to_numeric (cell r lat_col) in
  let lon :=
    to_numeric (cell (row_set r "__lat" (VFloat lat)) lon_col) in
  match validate_coordinates (VFloat lat) (VFloat lon) with
  | Ok b => b
  | Raise _ => false
  end.

End Passing.



(** The frame the loader returns for the CSV of the example. *)
Definition example_layer : DataFrame :=
  {| columns := ["lat"; "lng"; "name"; "latitude"; "longitude"];
     rows := [example_record] |}.

(** A resolved column shows in a tooltip: the column is named, the row has
    a field of that name, and the field is not null. *)
Definition field_shown (r : row) (col : option string) : bool :=
  match col with
  | Some c => truthy col && has_label r c && notna (cell r c)
  | None => false
  end.

(** The line such a column adds to a tooltip: the text of the field
    between [before] and [after], or nothing. *)
Definition tooltip_line (before after : html) (r : row)
           (col : option string) : html :=
  match col with
  | Some c =>
      if field_shown r col then before ++ Str (Scalar (cell r c)) :: after
      else []
  | None => []
  end.

(** The shape of a frame [read_csv] returns whose header uses none of the
    names the loader writes: every row has the columns of the frame, and no
    column is named latitude, longitude, __lat or __lon. *)
Definition clean (df : DataFrame) : Prop :=
  well_formed df = true
  /\ mem "__lat" (columns df) = false
  /\ mem "__lon" (columns df) = false
  /\ mem "latitude" (columns df) = false
  /\ mem "longitude" (columns df) = false.

(** * Properties *)

(** ** Results and numbers *)

Lemma in_range_spec (lo hi : Z) (x : num) :
  in_range lo hi x = true <->
  exists q, x = Fin q /\ (inject_Z lo <= q)%Q /\ (q <= inject_Z hi)%Q.
Proof.
  unfold in_range, num_of_Z.
  destruct x as [q | | |]; simpl.
  - rewrite andb_true_iff, !Qle_bool_iff. split.
    + intros [H1 H2]. exists q. auto.
    + intros (q' & E & H1 & H2). injection E as <-. auto.
  - split; [discriminate | intros (q & E & _); discriminate].
  - split; [discriminate | intros (q & E & _); discriminate].
  - split; [discriminate | intros (q & E & _); discriminate].
Qed.

Lemma mapM_length {A B} (f : A -> result B) (l : list A) (bs : list B) :
  mapM f l = Ok bs -> List.length bs = List.length l.
Proof.
  revert bs. induction l as [| a l IH]; simpl; intros bs H.
  - injection H as <-. reflexivity.
  - destruct (f a) as [b | e]; simpl in H; [| discriminate].
    destruct (mapM f l) as [bs' | e]; simpl in H; [| discriminate].
    injection H as <-. simpl. f_equal. apply IH. reflexivity.
Qed.

(** ** The coordinate validator *)

(** C5.  Whatever the two inputs are, [validate_coordinates] raises nothing
    and returns a boolean; that boolean is [true] exactly when [float]
    converts both inputs to finite numbers with the latitude in [-90, 90]
    and the longitude in [-180, 180]; and it is [false] as soon as one of
    the two conversions fails.  The function has a value and nothing else:
    its type leaves no room for an effect. *)
Theorem validate_coordinates_spec {conv : Conv} (lat lon : value) :
  exists b : bool,
    validate_coordinates lat lon = Ok b
    /\ (b = true <->
        exists x y : Q,
          py_float lat = Ok (Fin x) /\ py_float lon = Ok (Fin y)
          /\ (inject_Z (-90) <= x)%Q /\ (x <= inject_Z 90)%Q
          /\ (inject_Z (-180) <= y)%Q /\ (y <= inject_Z 180)%Q)
    /\ (is_ok (py_float lat) = false \/ is_ok (py_float lon) = false ->
        b = false).
Proof.
  unfold validate_coordinates.
  destruct (py_float lat) as [a | e1]; simpl.
  - destruct (py_float lon) as [b | e2]; simpl.
    + eexists. split; [reflexivity |]. split.
      * rewrite andb_true_iff, !in_range_spec. split.
        -- intros [(x & -> & H1 & H2) (y & -> & H3 & H4)].
           exists x, y. auto 10.
        -- intros (x & y & E1 & E2 & H1 & H2 & H3 & H4).
           injection E1 as ->. injection E2 as ->.
           split; eexists; eauto.
      * intros [H | H]; discriminate.
    + exists false. split; [reflexivity |]. split.
      * split; [discriminate |].
        intros (x & y & _ & E & _). discriminate.
      * reflexivity.
  - exists false. split; [reflexivity |]. split.
    + split; [discriminate |].
      intros (x & y & E & _). discriminate.
    + reflexivity.
Qed.

(** ** The schema sniffer *)

Lemma sniff_loop (cols : list string) (a b : option string) :
  fold_left sniff_step cols (a, b) =
  (first_set a (find (fun c => any_in lat_tokens (lower c)) cols),
   first_set b (find (fun c => any_in lon_tokens (lower c)) cols)).
Proof.
  revert a b. induction cols as [| c cols IH]; intros a b;
    cbn [fold_left find].
  - destruct a, b; reflexivity.
  - cbv beta iota zeta delta [sniff_step]. rewrite IH.
    destruct a, b; cbn [is_none andb first_set];
      destruct (any_in lat_tokens (lower c));
      destruct (any_in lon_tokens (lower c)); reflexivity.
Qed.

(** C7.  The latitude column is the first column, in the order of the
    frame, whose lowercased name contains "lat" or "latitude", and the
    longitude column the first whose lowercased name contains "lon", "long",
    "longitude" or "lng".  When one of the two is not found, the first two
    numeric columns in the order of the frame become (lat, lon) if there
    are two; otherwise the loader returns the empty frame with
    [valid_count = 0] and [invalid_count] the number of rows read. *)
Theorem sniffer_spec {conv : Conv} (df : DataFrame) :
  let by_lat := find (fun c => any_in lat_tokens (lower c)) (columns df) in
  let by_lon := find (fun c => any_in lon_tokens (lower c)) (columns df) in
  exists p : parsed,
    parse_csv (Csv df) = Ok p
    /\ match by_lat, by_lon with
       | Some a, Some b => lat_col p = Some a /\ lon_col p = Some b
       | _, _ =>
           match select_dtypes_number df with
           | n1 :: n2 :: _ => lat_col p = Some n1 /\ lon_col p = Some n2
           | _ =>
               p = {| valid := empty_frame; valid_count := 0;
                      invalid_count := len df;
                      postal_col := None; name_col := None;
                      lat_col := None; lon_col := None |}
           end
       end.
Proof.
  intros by_lat by_lon. subst by_lat by_lon.
  unfold parse_csv, detect_lat_lon. cbn [read_csv bind].
  rewrite sniff_loop. cbn [first_set].
  destruct (find (fun c => any_in lat_tokens (lower c)) (columns df)) as [a |];
    destruct (find (fun c => any_in lon_tokens (lower c)) (columns df))
      as [b |];
    try (eexists; split; [reflexivity |]; simpl; auto; fail);
    destruct (select_dtypes_number df) as [| n1 [| n2 rest]];
    eexists; (split; [reflexivity |]); simpl; auto.
Qed.

(** ** Rows *)

Lemma cell_row_set_same (r : row) (k : string) (v : value) :
  cell (row_set r k v) k = v.
Proof.
  unfold cell, values_at.
  induction r as [| [k' v'] r IH]; simpl.
  - rewrite String.eqb_refl. reflexivity.
  - destruct (String.eqb k' k) eqn:E; simpl.
    + rewrite String.eqb_refl. reflexivity.
    + rewrite E. exact IH.
Qed.

Lemma cell_row_set_other (r : row) (k k' : string) (v : value) :
  k <> k' -> cell (row_set r k v) k' = cell r k'.
Proof.
  intros Hne. unfold cell, values_at.
  assert (Hk : String.eqb k k' = false) by (apply String.eqb_neq; exact Hne).
  induction r as [| [k0 v0] r IH]; simpl.
  - rewrite Hk. reflexivity.
  - destruct (String.eqb k0 k) eqn:E; simpl.
    + apply String.eqb_eq in E. subst k0. rewrite Hk. reflexivity.
    + destruct (String.eqb k0 k'); simpl; [reflexivity | exact IH].
Qed.

Lemma row_set_fresh (r : row) (k : string) (v : value) :
  has_label r k = false -> row_set r k v = r ++ [(k, v)].
Proof.
  unfold has_label.
  induction r as [| [k' v'] r IH]; simpl; intros H.
  - reflexivity.
  - apply orb_false_iff in H. destruct H as [H1 H2].
    rewrite H1. f_equal. apply IH. exact H2.
Qed.

Lemma has_label_labels (r : row) (k : string) :
  has_label r k = mem k (labels r).
Proof.
  unfold has_label, mem, labels.
  induction r as [| [k' v'] r IH]; simpl.
  - reflexivity.
  - rewrite IH. f_equal. apply String.eqb_sym.
Qed.

Lemma mem_In (k : string) (l : list string) : mem k l = true <-> In k l.
Proof.
  unfold mem. rewrite existsb_exists. split.
  - intros (x & Hx & E). apply String.eqb_eq in E. subst. exact Hx.
  - intros H. exists k. split; [exact H | apply String.eqb_refl].
Qed.

Lemma mem_false (k : string) (l : list string) :
  mem k l = false <-> ~ In k l.
Proof.
  rewrite <- mem_In. destruct (mem k l); split; congruence.
Qed.

Lemma mask_is_range (x y : value) (lat lon : num) :
  x = VFloat lat -> y = VFloat lon ->
  notna x && notna y && between (-90) 90 x && between (-180) 180 y
  = in_range (-90) 90 lat && in_range (-180) 180 lon.
Proof.
  intros -> ->. destruct lat, lon; simpl; try reflexivity;
    rewrite ?andb_false_r; reflexivity.
Qed.

Lemma loc_map (df : DataFrame) (f : row -> bool) :
  rows (loc df (map f (rows df))) = filter f (rows df).
Proof.
  unfold loc. simpl. induction (rows df) as [| r l IH]; simpl.
  - reflexivity.
  - destruct (f r); simpl; rewrite IH; reflexivity.
Qed.

Lemma mask_sum_map {A} (f : A -> bool) (l : list A) :
  mask_sum (map f l) = Z.of_nat (List.length (filter f l)).
Proof.
  unfold mask_sum. f_equal.
  induction l as [| a l IH]; simpl.
  - reflexivity.
  - destruct (f a); simpl; rewrite IH; reflexivity.
Qed.

(** ** The loader *)

Section LoaderFacts.
Context {conv : Conv}.

Lemma coordinate_mask_coerced (a b : string) (r : row) :
  coordinate_mask (coerce_row a b r)
  = in_range (-90) 90 (to_numeric (cell r a))
    && in_range (-180) 180
         (to_numeric
            (cell (row_set r "__lat" (VFloat (to_numeric (cell r a)))) b)).
Proof.
  unfold coordinate_mask, coerce_row. cbv zeta.
  apply mask_is_range.
  - rewrite cell_row_set_other by discriminate.
    apply cell_row_set_same.
  - apply cell_row_set_same.
Qed.

Lemma coordinate_mask_survives (a b : string) (r : row) :
  b <> "__lat" ->
  coordinate_mask (coerce_row a b r) = survives a b r.
Proof.
  intros Hb. rewrite coordinate_mask_coerced. unfold survives.
  rewrite cell_row_set_other by congruence. reflexivity.
Qed.

Lemma parse_csv_unresolved (df : DataFrame) :
  detect_lat_lon df = None ->
  parse_csv (Csv df)
  = Ok {| valid := empty_frame; valid_count := 0; invalid_count := len df;
          postal_col := None; name_col := None;
          lat_col := None; lon_col := None |}.
Proof. intros H. unfold parse_csv. cbn [read_csv bind]. rewrite H. reflexivity. Qed.

Lemma parse_csv_resolved (df : DataFrame) (a b : string) :
  detect_lat_lon df = Some (a, b) ->
  exists p,
    parse_csv (Csv df) = Ok p
    /\ lat_col p = Some a /\ lon_col p = Some b
    /\ columns (valid p)
       = filter (fun c => negb (mem c ["__lat"; "__lon"]))
           (map (rename_label [("__lat", "latitude");
                               ("__lon", "longitude")])
                (add_label (add_label (columns df) "__lat") "__lon"))
    /\ rows (valid p)
       = map canonical_row
           (filter coordinate_mask (map (coerce_row a b) (rows df)))
    /\ valid_count p
       = Z.of_nat (List.length
                     (filter coordinate_mask
                             (map (coerce_row a b) (rows df))))
    /\ invalid_count p = len df - valid_count p.
Proof.
  intros H. unfold parse_csv. cbn [read_csv bind]. rewrite H.
  eexists. split; [reflexivity |].
  cbn [lat_col lon_col valid valid_count invalid_count].
  assert (E : rows (setitem
                      (setitem df "__lat"
                         (fun r => VFloat (to_numeric (cell r a))))
                      "__lon" (fun r => VFloat (to_numeric (cell r b))))
              = map (coerce_row a b) (rows df)).
  { unfold setitem. cbn [rows]. rewrite map_map. reflexivity. }
  repeat split.
  - unfold drop, rename. cbn [rows columns]. rewrite loc_map, E.
    rewrite !map_map. reflexivity.
  - rewrite E. apply mask_sum_map.
Qed.

Lemma parse_csv_total (df : DataFrame) : exists p, parse_csv (Csv df) = Ok p.
Proof.
  destruct (detect_lat_lon df) as [[a b] |] eqn:E.
  - destruct (parse_csv_resolved df E) as (p & Hp & _). eauto.
  - rewrite (parse_csv_unresolved df E). eauto.
Qed.

Lemma parse_csv_detected (df : DataFrame) (p : parsed) (a b : string) :
  parse_csv (Csv df) = Ok p ->
  lat_col p = Some a -> lon_col p = Some b ->
  detect_lat_lon df = Some (a, b).
Proof.
  intros Hp Ha Hb.
  destruct (detect_lat_lon df) as [[a' b'] |] eqn:E.
  - destruct (parse_csv_resolved df E) as (p' & Hp' & Ha' & Hb' & _).
    congruence.
  - rewrite (parse_csv_unresolved df E) in Hp.
    injection Hp as <-. discriminate.
Qed.

End LoaderFacts.

Lemma find_In {A} (f : A -> bool) (l : list A) (a : A) :
  find f l = Some a -> In a l.
Proof. intros H. apply find_some in H. tauto. Qed.

Lemma detect_lat_lon_In (df : DataFrame) (a b : string) :
  detect_lat_lon df = Some (a, b) ->
  In a (columns df) /\ In b (columns df).
Proof.
  unfold detect_lat_lon. rewrite sniff_loop. cbn [first_set].
  assert (Hnum : forall n1 n2 rest,
             select_dtypes_number df = n1 :: n2 :: rest ->
             In n1 (columns df) /\ In n2 (columns df)).
  { unfold select_dtypes_number. intros n1 n2 rest E.
    assert (H1 : In n1 (filter (numeric_column df) (columns df)))
      by (rewrite E; simpl; auto).
    assert (H2 : In n2 (filter (numeric_column df) (columns df)))
      by (rewrite E; simpl; auto).
    apply filter_In in H1, H2. tauto. }
  destruct (find (fun c => any_in lat_tokens (lower c)) (columns df))
    as [a' |] eqn:Ea;
    destruct (find (fun c => any_in lon_tokens (lower c)) (columns df))
      as [b' |] eqn:Eb.
  - intros E. injection E as <- <-. split; eapply find_In; eassumption.
  - destruct (select_dtypes_number df) as [| n1 [| n2 rest]] eqn:En;
      try discriminate.
    intros E. injection E as <- <-. eapply Hnum. reflexivity.
  - destruct (select_dtypes_number df) as [| n1 [| n2 rest]] eqn:En;
      try discriminate.
    intros E. injection E as <- <-. eapply Hnum. reflexivity.
  - destruct (select_dtypes_number df) as [| n1 [| n2 rest]] eqn:En;
      try discriminate.
    intros E. injection E as <- <-. eapply Hnum. reflexivity.
Qed.

Lemma filter_map_length {A B} (f : B -> bool) (g : A -> B) (l : list A) :
  List.length (filter f (map g l))
  = List.length (filter (fun a => f (g a)) l).
Proof.
  induction l as [| a l IH]; simpl; [reflexivity |].
  destruct (f (g a)); simpl; rewrite IH; reflexivity.
Qed.

Lemma filter_map_swap {A B} (f : B -> bool) (g : A -> B) (l : list A) :
  filter f (map g l) = map g (filter (fun a => f (g a)) l).
Proof.
  induction l as [| a l IH]; simpl; [reflexivity |].
  destruct (f (g a)); simpl; rewrite IH; reflexivity.
Qed.

(** C6.  For a CSV of N rows, [valid_count] is the number of rows the loader
    returns, which is the number of rows whose coerced coordinates pass the
    range test, and [invalid_count] is N minus [valid_count].  On the CSV
    with columns lat, lng, name and rows (10, 20, A), (91, 20, B),
    (x, y, C) the loader returns the one record A, [valid_count = 1] and
    [invalid_count = 2]. *)
Theorem loader_counts :
  (forall (conv : Conv) (df : DataFrame) (p : parsed),
      parse_csv (Csv df) = Ok p ->
      valid_count p = len (valid p)
      /\ invalid_count p = len df - valid_count p
      /\ forall a b : string,
           lat_col p = Some a -> lon_col p = Some b ->
           valid_count p
           = Z.of_nat
               (List.length
                  (filter (fun r => coordinate_mask (coerce_row a b r))
                          (rows df))))
  /\ parse_csv (conv := decimal_conv) (Csv example_csv)
     = Ok {| valid :=
               {| columns := ["lat"; "lng"; "name"; "latitude"; "longitude"];
                  rows := [example_record] |};
             valid_count := 1; invalid_count := 2;
             postal_col := None; name_col := Some "name";
             lat_col := Some "lat"; lon_col := Some "lng" |}.
Proof.
  split; [| reflexivity].
  intros conv df p Hp.
  destruct (detect_lat_lon df) as [[a b] |] eqn:E.
  - destruct (parse_csv_resolved df E)
      as (p' & Hp' & Ha & Hb & _ & Hrows & Hok & Hbad).
    assert (p' = p) by congruence. subst p'.
    repeat split.
    + unfold len. rewrite Hrows, length_map. exact Hok.
    + exact Hbad.
    + intros a' b' Ha' Hb'.
      assert (a' = a) by congruence. assert (b' = b) by congruence.
      subst a' b'. rewrite Hok, filter_map_length. reflexivity.
  - rewrite (parse_csv_unresolved df E) in Hp. injection Hp as <-.
    cbn. repeat split; try lia. intros a b Ha. discriminate.
Qed.

(** ** What the loader keeps and what it adds *)

Lemma rename_cases (k : string) :
  let k' := rename_label [("__lat", "latitude"); ("__lon", "longitude")] k in
  (k = "__lat" /\ k' = "latitude")
  \/ (k = "__lon" /\ k' = "longitude")
  \/ (k <> "__lat" /\ k <> "__lon" /\ k' = k).
Proof.
  unfold rename_label. cbn [find fst snd].
  destruct (String.eqb "__lat" k) eqn:E1.
  - apply String.eqb_eq in E1. left. auto.
  - destruct (String.eqb "__lon" k) eqn:E2.
    + apply String.eqb_eq in E2. right. left. auto.
    + apply String.eqb_neq in E1, E2. right. right. auto.
Qed.

Lemma renamed_not_scratch (k : string) :
  mem (rename_label [("__lat", "latitude"); ("__lon", "longitude")] k)
      ["__lat"; "__lon"] = false.
Proof.
  apply mem_false. intros H.
  destruct (rename_cases k) as [[_ E] | [[_ E] | (H1 & H2 & E)]];
    cbv zeta in E; rewrite E in H; simpl in H;
    destruct H as [H | [H | []]]; congruence.
Qed.

Lemma canonical_row_relabel (r : row) :
  canonical_row r
  = map (fun p => (rename_label [("__lat", "latitude");
                                 ("__lon", "longitude")] (fst p), snd p)) r.
Proof.
  unfold canonical_row.
  induction r as [| [k v] r IH]; [reflexivity |].
  cbn [map filter fst snd]. rewrite renamed_not_scratch. cbn [negb].
  f_equal. exact IH.
Qed.

Lemma canonical_row_fresh (r : row) :
  has_label r "__lat" = false -> has_label r "__lon" = false ->
  canonical_row r = r.
Proof.
  rewrite canonical_row_relabel. unfold has_label.
  induction r as [| [k v] r IH]; [reflexivity |].
  cbn [existsb map fst snd]. intros H1 H2.
  apply orb_false_iff in H1, H2. destruct H1 as [H1 H1'], H2 as [H2 H2'].
  rewrite IH by assumption.
  destruct (rename_cases k) as [[E _] | [[E _] | (_ & _ & E)]].
  - subst k. discriminate.
  - subst k. discriminate.
  - cbv zeta in E. rewrite E. reflexivity.
Qed.

Lemma values_at_row_set_other (r : row) (k k' : string) (v : value) :
  k <> k' -> values_at (row_set r k v) k' = values_at r k'.
Proof.
  intros Hne. unfold values_at.
  assert (Hk : String.eqb k k' = false) by (apply String.eqb_neq; exact Hne).
  induction r as [| [k0 v0] r IH]; simpl.
  - rewrite Hk. reflexivity.
  - destruct (String.eqb k0 k) eqn:E; simpl.
    + apply String.eqb_eq in E. subst k0. rewrite Hk. reflexivity.
    + destruct (String.eqb k0 k'); simpl; [f_equal |]; exact IH.
Qed.

Lemma values_at_absent (r : row) (k : string) :
  ~ In k (labels r) -> values_at r k = [].
Proof.
  unfold values_at, labels.
  induction r as [| [k' v'] r IH]; [reflexivity |].
  cbn [map filter fst In]. intros H.
  destruct (String.eqb k' k) eqn:E.
  - apply String.eqb_eq in E. tauto.
  - apply IH. tauto.
Qed.

Lemma values_at_nodup (r : row) (k : string) :
  NoDup (labels r) ->
  values_at r k = [] \/ exists v, values_at r k = [v].
Proof.
  induction r as [| [k' v'] r IH]; [left; reflexivity |].
  cbn [labels map fst]. intros H. inversion H as [| x l Hnin Hnd]; subst.
  unfold values_at. cbn [filter fst].
  destruct (String.eqb k' k) eqn:E.
  - apply String.eqb_eq in E. subst k'. right. exists v'.
    cbn [map snd]. f_equal. apply (values_at_absent r k Hnin).
  - apply IH. exact Hnd.
Qed.

Lemma relabel_fresh (cols : list string) :
  ~ In "__lat" cols -> ~ In "__lon" cols ->
  map (rename_label [("__lat", "latitude"); ("__lon", "longitude")]) cols
  = cols.
Proof.
  induction cols as [| c cols IH]; [reflexivity |].
  cbn [map In]. intros H1 H2. rewrite IH by tauto. f_equal.
  destruct (rename_cases c) as [[E _] | [[E _] | (_ & _ & E)]].
  - subst c. tauto.
  - subst c. tauto.
  - exact E.
Qed.

Lemma keep_fresh (cols : list string) :
  ~ In "__lat" cols -> ~ In "__lon" cols ->
  filter (fun c => negb (mem c ["__lat"; "__lon"])) cols = cols.
Proof.
  induction cols as [| c cols IH]; [reflexivity |].
  cbn [filter In]. intros H1 H2.
  assert (E : mem c ["__lat"; "__lon"] = false).
  { apply mem_false. simpl. intros [H | [H | []]]; subst c; tauto. }
  rewrite E. cbn [negb]. f_equal. apply IH; tauto.
Qed.

Lemma well_formed_labels (df : DataFrame) (r : row) :
  well_formed df = true -> In r (rows df) -> labels r = columns df.
Proof.
  unfold well_formed. rewrite forallb_forall. intros H Hr.
  specialize (H r Hr).
  destruct (list_eq_dec string_dec (labels r) (columns df));
    [assumption | discriminate].
Qed.

Section Kept.
Context {conv : Conv}.

Lemma coerce_row_fresh (a b : string) (r : row) :
  has_label r "__lat" = false -> has_label r "__lon" = false ->
  b <> "__lat" ->
  canonical_row (coerce_row a b r) = augmented a b r.
Proof.
  intros H1 H2 Hb. unfold coerce_row, augmented. cbv zeta.
  rewrite cell_row_set_other by congruence.
  rewrite (row_set_fresh r "__lat" _ H1).
  rewrite row_set_fresh.
  - rewrite <- app_assoc. rewrite canonical_row_relabel, map_app.
    rewrite <- canonical_row_relabel.
    rewrite (canonical_row_fresh r H1 H2). reflexivity.
  - unfold has_label in *. rewrite existsb_app, H2. reflexivity.
Qed.

(** C3, as the code has it.  For a CSV that [read_csv] parsed, with no
    column named [__lat] or [__lon], and whose lat/lon columns resolve:
    the loader returns every original column under its original name, the
    two resolved columns among them, with the values the file has on each
    surviving row, and adds behind them the columns [latitude] and
    [longitude], which hold the coerced numbers of the resolved columns. *)
Theorem loader_keeps_and_adds (df : DataFrame) (p : parsed) (a b : string) :
  well_formed df = true ->
  mem "__lat" (columns df) = false ->
  mem "__lon" (columns df) = false ->
  parse_csv (Csv df) = Ok p ->
  lat_col p = Some a -> lon_col p = Some b ->
  columns (valid p) = columns df ++ ["latitude"; "longitude"]
  /\ rows (valid p) = map (augmented a b) (filter (survives a b) (rows df)).
Proof.
  intros Hwf Hlat Hlon Hp Ha Hb.
  pose proof (parse_csv_detected df Hp Ha Hb) as Hd.
  destruct (detect_lat_lon_In df Hd) as [_ Hbin].
  apply mem_false in Hlat, Hlon.
  assert (Hb' : b <> "__lat") by (intros ->; tauto).
  destruct (parse_csv_resolved df Hd)
    as (p' & Hp' & _ & _ & Hcols & Hrows & _).
  assert (p' = p) by congruence. subst p'.
  split.
  - rewrite Hcols. unfold add_label.
    replace (mem "__lat" (columns df)) with false
      by (symmetry; apply mem_false; exact Hlat).
    replace (mem "__lon" (columns df ++ ["__lat"])) with false.
    + rewrite <- app_assoc. cbn [app]. rewrite map_app, filter_app.
      rewrite relabel_fresh by assumption.
      rewrite keep_fresh by assumption. reflexivity.
    + symmetry. apply mem_false. rewrite in_app_iff. simpl.
      intros [H | [H | []]]; [tauto | discriminate].
  - rewrite Hrows, filter_map_swap, map_map.
    assert (Hfresh : forall r, In r (rows df) ->
               has_label r "__lat" = false /\ has_label r "__lon" = false).
    { intros r Hr. rewrite !has_label_labels.
      rewrite (well_formed_labels df r Hwf Hr).
      split; apply mem_false; assumption. }
    rewrite (filter_ext_in _ (survives a b)).
    + apply map_ext_in. intros r Hr. apply filter_In in Hr.
      destruct Hr as [Hr _]. destruct (Hfresh r Hr).
      apply coerce_row_fresh; assumption.
    + intros r Hr. apply coordinate_mask_survives. exact Hb'.
Qed.

End Kept.

(** The CSV of the example keeps its three columns and gains the two
    canonical ones. *)
Lemma loader_keeps_and_adds_witness :
  exists p,
    parse_csv (conv := decimal_conv) (Csv example_csv) = Ok p
    /\ columns (valid p)
       = ["lat"; "lng"; "name"; "latitude"; "longitude"]
    /\ rows (valid p)
       = map (augmented (conv := decimal_conv) "lat" "lng")
             (filter (survives (conv := decimal_conv) "lat" "lng")
                     (rows example_csv)).
Proof.
  eexists. split; [reflexivity |].
  apply (loader_keeps_and_adds (conv := decimal_conv) example_csv);
    reflexivity.
Defined.

(** C3, as the specification words it, fails: on the CSV of the example the
    resolved columns [lat] and [lng] are still in the returned frame under
    their own names, on its one row as well. *)
Lemma loader_renames_counterexample :
  exists p,
    parse_csv (conv := decimal_conv) (Csv example_csv) = Ok p
    /\ lat_col p = Some "lat" /\ lon_col p = Some "lng"
    /\ In "lat" (columns (valid p)) /\ In "lng" (columns (valid p))
    /\ Forall (fun r => has_label r "lat" = true /\ has_label r "lng" = true)
              (rows (valid p)).
Proof.
  eexists. split; [reflexivity |]. cbn.
  repeat split; auto 10.
Qed.

(** ** Every returned record passed the validation *)

Lemma values_at_row_set_one (r : row) (k : string) (v : value) :
  (List.length (values_at r k) <= 1)%nat ->
  values_at (row_set r k v) k = [v].
Proof.
  unfold values_at.
  induction r as [| [k' v'] r IH]; cbn [row_set filter fst].
  - intros _. rewrite String.eqb_refl. reflexivity.
  - destruct (String.eqb k' k) eqn:E; cbn [filter fst].
    + rewrite String.eqb_refl. cbn [map snd List.length]. intros H.
      f_equal. destruct (map snd _); [reflexivity | simpl in H; lia].
    + rewrite E. exact IH.
Qed.

Lemma values_at_short (r : row) (k : string) :
  NoDup (labels r) -> (List.length (values_at r k) <= 1)%nat.
Proof.
  intros Hnd. destruct (values_at_nodup r k Hnd) as [-> | [v ->]];
    simpl; lia.
Qed.

(** Where a row has no field of the canonical name, the renaming leaves
    under that name what the scratch label held. *)
Lemma canonical_row_latitude (r : row) :
  values_at r "latitude" = [] ->
  values_at (canonical_row r) "latitude" = values_at r "__lat".
Proof.
  rewrite canonical_row_relabel. unfold values_at.
  induction r as [| [k w] r IH]; [reflexivity |].
  cbn [map filter fst snd].
  destruct (rename_cases k) as [[E E'] | [[E E'] | (N1 & N2 & E')]];
    cbv zeta in E'; rewrite E'.
  - subst k. cbn. intros H. f_equal. apply IH. exact H.
  - subst k. cbn. exact IH.
  - destruct (String.eqb k "latitude") eqn:K; [discriminate |].
    apply String.eqb_neq in N1. rewrite N1. exact IH.
Qed.

Lemma canonical_row_longitude (r : row) :
  values_at r "longitude" = [] ->
  values_at (canonical_row r) "longitude" = values_at r "__lon".
Proof.
  rewrite canonical_row_relabel. unfold values_at.
  induction r as [| [k w] r IH]; [reflexivity |].
  cbn [map filter fst snd].
  destruct (rename_cases k) as [[E E'] | [[E E'] | (N1 & N2 & E')]];
    cbv zeta in E'; rewrite E'.
  - subst k. cbn. exact IH.
  - subst k. cbn. intros H. f_equal. apply IH. exact H.
  - destruct (String.eqb k "longitude") eqn:K; [discriminate |].
    apply String.eqb_neq in N2. rewrite N2. exact IH.
Qed.

Section Validated.
Context {conv : Conv}.

(** A returned record of a file that has no column of a canonical name
    holds one value under each canonical name: the coerced number, which
    is in range. *)
Lemma valid_row_fields (df : DataFrame) (p : parsed) (r : row) :
  well_formed df = true -> NoDup (columns df) ->
  mem "latitude" (columns df) = false ->
  mem "longitude" (columns df) = false ->
  parse_csv (Csv df) = Ok p -> In r (rows (valid p)) ->
  exists x y : Q,
    values_at r "latitude" = [VFloat (Fin x)]
    /\ values_at r "longitude" = [VFloat (Fin y)]
    /\ in_range (-90) 90 (Fin x) = true
    /\ in_range (-180) 180 (Fin y) = true.
Proof.
  intros Hwf Hnd Hla Hlo Hp Hr.
  destruct (detect_lat_lon df) as [[a b] |] eqn:E.
  - destruct (parse_csv_resolved df E) as (p' & Hp' & _ & _ & _ & Hrows & _).
    assert (p' = p) by congruence. subst p'.
    rewrite Hrows in Hr. apply in_map_iff in Hr.
    destruct Hr as (r' & <- & Hr'). apply filter_In in Hr'.
    destruct Hr' as [Hr' Hmask]. apply in_map_iff in Hr'.
    destruct Hr' as (r0 & <- & Hr0).
    pose proof (well_formed_labels df r0 Hwf Hr0) as Hl.
    assert (Hnd0 : NoDup (labels r0)) by (rewrite Hl; exact Hnd).
    assert (A1 : values_at r0 "latitude" = []).
    { apply values_at_absent. rewrite Hl. apply mem_false. exact Hla. }
    assert (A2 : values_at r0 "longitude" = []).
    { apply values_at_absent. rewrite Hl. apply mem_false. exact Hlo. }
    rewrite coordinate_mask_coerced in Hmask.
    apply andb_true_iff in Hmask. destruct Hmask as [Hlat Hlon].
    pose proof Hlat as Hlat'. pose proof Hlon as Hlon'.
    apply in_range_spec in Hlat'. destruct Hlat' as (x & Ex & _).
    apply in_range_spec in Hlon'. destruct Hlon' as (y & Ey & _).
    exists x, y. rewrite <- Ex, <- Ey. repeat split; try assumption.
    + rewrite canonical_row_latitude.
      * unfold coerce_row. cbv zeta.
        rewrite values_at_row_set_other by discriminate.
        apply values_at_row_set_one. apply values_at_short. exact Hnd0.
      * unfold coerce_row. cbv zeta.
        rewrite !values_at_row_set_other by discriminate. exact A1.
    + rewrite canonical_row_longitude.
      * unfold coerce_row. cbv zeta.
        apply values_at_row_set_one.
        rewrite values_at_row_set_other by discriminate.
        apply values_at_short. exact Hnd0.
      * unfold coerce_row. cbv zeta.
        rewrite !values_at_row_set_other by discriminate. exact A2.
  - rewrite (parse_csv_unresolved df E) in Hp. injection Hp as <-.
    destruct Hr.
Qed.

End Validated.

(** ** Runs of the page *)

Lemma ui_bind_In {A B} (m : ui A) (k : A -> ui B) (e : event) :
  In e (fst (ui_bind m k)) ->
  In e (fst m) \/ exists a, snd m = Ok a /\ In e (fst (k a)).
Proof.
  destruct m as [log [a | x]]; simpl.
  - destruct (k a) as [log' r] eqn:E. simpl. rewrite in_app_iff.
    intros [H | H]; [left; exact H |].
    right. exists a. rewrite E. auto.
  - auto.
Qed.

Lemma plain_emit (e : event) : is_expander e = false -> plain (emit e).
Proof. intros H e' [<- | []]. exact H. Qed.

Lemma plain_lift {A} (r : result A) : plain (lift r).
Proof. intros e []. Qed.

Lemma plain_within {A} (wrap : list event -> event) (body : ui A) :
  (forall l, is_expander (wrap l) = false) -> plain (within wrap body).
Proof.
  intros H e. unfold within. destruct body as [log r]. simpl.
  intros [<- | []]. apply H.
Qed.

(** Steps over one call of a run that opens no expander. *)
Ltac skip_step H :=
  apply ui_bind_In in H; destruct H as [H | (? & _ & H)];
  [ exfalso;
    first [ apply plain_within in H; [discriminate | reflexivity]
          | apply plain_emit in H; [discriminate | reflexivity] ]
  | ].

Section PageFacts.
Context {conv : Conv}.

Lemma load_plain (path what : string) (fs : string -> file) :
  plain (load path what fs).
Proof.
  unfold load.
  destruct (negb (String.eqb path "") && path_exists (fs path)).
  - apply plain_lift.
  - intros e [<- | []]. reflexivity.
Qed.

Lemma load_inv (path what : string) (fs : string -> file) (u : parsed) :
  snd (load path what fs) = Ok u ->
  parse_csv (fs path) = Ok u \/ df_empty (valid u) = true.
Proof.
  unfold load.
  destruct (negb (String.eqb path "") && path_exists (fs path)); simpl.
  - auto.
  - intros H. injection H as <-. right. reflexivity.
Qed.

Lemma preview_In (label empty_text : string) (df : DataFrame) (ok bad : Z)
      (l : string) (body : list event) (ok' bad' : Z) :
  In (Expander l body) (fst (preview label empty_text df ok bad)) ->
  In (Write ok' bad') body ->
  l = label /\ ok' = ok /\ bad' = bad /\ df_empty df = false.
Proof.
  unfold preview. destruct (df_empty df); simpl.
  - intros [H | []]. injection H as <- <-. intros [H | []]. discriminate.
  - intros [H | []]. injection H as <- <-.
    intros [H | [H | []]]; [| discriminate].
    injection H as <- <-. auto.
Qed.

(** The counts a preview writes are the counts the load returned. *)
Lemma main_previews (fs : string -> file) (cluster fast_csv : bool)
      (l : string) (body : list event) (ok bad : Z) :
  In (Expander l body) (fst (main fs cluster fast_csv)) ->
  In (Write ok bad) body ->
  (l = "📊 URL Data (valid rows)"
   /\ exists p, parse_csv (fs PATH_URL_CSV) = Ok p
                /\ ok = valid_count p /\ bad = invalid_count p)
  \/ (l = "📊 Store Data (valid rows)"
      /\ exists p, parse_csv (fs PATH_STORE_CSV) = Ok p
                   /\ ok = valid_count p /\ bad = invalid_count p).
Proof.
  unfold main. intros H Hw.
  do 2 skip_step H.
  apply ui_bind_In in H. destruct H as [H | (u & Hu & H)].
  { apply load_plain in H. discriminate. }
  apply ui_bind_In in H. destruct H as [H | (s & Hs & H)].
  { apply load_plain in H. discriminate. }
  cbv zeta in H.
  do 8 skip_step H.
  apply ui_bind_In in H. destruct H as [H | (? & _ & H)].
  { exfalso. revert H.
    destruct (truthy (postal_col u) || truthy (postal_col s));
      [destruct (map dropna_astype_str _) |];
      intros H; apply plain_emit in H; discriminate || reflexivity. }
  apply ui_bind_In in H. destruct H as [H | (? & _ & H)].
  - destruct (preview_In _ _ _ _ _ _ _ _ _ H Hw) as (-> & -> & -> & He).
    left. split; [reflexivity |].
    destruct (load_inv _ _ _ Hu) as [Hp | Hp]; [eauto | congruence].
  - destruct (preview_In _ _ _ _ _ _ _ _ _ H Hw) as (-> & -> & -> & He).
    right. split; [reflexivity |].
    destruct (load_inv _ _ _ Hs) as [Hp | Hp]; [eauto | congruence].
Qed.

End PageFacts.

(** C8, amended.  For a CSV as [read_csv] parses it, its column names all
    different and none of them latitude or longitude, every record of the
    frame the loader returns passed the coordinate validation: its field
    [latitude] is one number in [-90, 90], its field [longitude] is one
    number in [-180, 180], and [validate_coordinates] accepts the pair.
    The two counts are values the load returned: whatever the page later
    writes as the valid and invalid counts of a data set are those two
    values, unchanged. *)
Theorem dataset_invariant :
  (forall (conv : Conv) (df : DataFrame) (p : parsed) (r : row),
      well_formed df = true -> NoDup (columns df) ->
      mem "latitude" (columns df) = false ->
      mem "longitude" (columns df) = false ->
      parse_csv (Csv df) = Ok p -> In r (rows (valid p)) ->
      exists x y : Q,
        row_getitem r "latitude" = Ok (Scalar (VFloat (Fin x)))
        /\ row_getitem r "longitude" = Ok (Scalar (VFloat (Fin y)))
        /\ (inject_Z (-90) <= x)%Q /\ (x <= inject_Z 90)%Q
        /\ (inject_Z (-180) <= y)%Q /\ (y <= inject_Z 180)%Q
        /\ validate_coordinates (VFloat (Fin x)) (VFloat (Fin y)) = Ok true)
  /\ (forall (conv : Conv) (fs : string -> file) (cluster fast_csv : bool)
             (l : string) (body : list event) (ok bad : Z),
         In (Expander l body) (fst (main fs cluster fast_csv)) ->
         In (Write ok bad) body ->
         (l = "📊 URL Data (valid rows)"
          /\ exists p, parse_csv (fs PATH_URL_CSV) = Ok p
                       /\ ok = valid_count p /\ bad = invalid_count p)
         \/ (l = "📊 Store Data (valid rows)"
             /\ exists p, parse_csv (fs PATH_STORE_CSV) = Ok p
                          /\ ok = valid_count p /\ bad = invalid_count p)).
Proof.
  split.
  - intros conv df p r Hwf Hnd Hla Hlo Hp Hr.
    destruct (valid_row_fields df r Hwf Hnd Hla Hlo Hp Hr)
      as (x & y & Hx & Hy & Rx & Ry).
    exists x, y.
    pose proof Rx as Rx'. pose proof Ry as Ry'.
    apply in_range_spec in Rx'. destruct Rx' as (x' & Ex & Hx1 & Hx2).
    apply in_range_spec in Ry'. destruct Ry' as (y' & Ey & Hy1 & Hy2).
    injection Ex as <-. injection Ey as <-.
    unfold row_getitem. rewrite Hx, Hy.
    repeat split; try assumption.
    unfold validate_coordinates. cbn [py_float bind try_except].
    rewrite Rx, Ry. reflexivity.
  - intros conv fs cluster fast_csv l body ok bad.
    apply main_previews.
Qed.

(** C8 as the specification words it does not hold of every file.  The
    loader keeps a column of the file that is named [latitude] beside the
    one it adds: the record it returns for the line [10,500,20] under the
    header [lat,latitude,lon] has two fields of that name, the file's 500
    first, so that its field [latitude] is no number in [-90, 90]. *)
Lemma dataset_invariant_counterexample :
  exists (p : parsed) (r : row),
    parse_csv (conv := decimal_conv) (Csv shadowed_csv) = Ok p
    /\ In r (rows (valid p))
    /\ row_getitem r "latitude"
       = Ok (Several [VInt 500; VFloat (Fin (inject_Z 10))])
    /\ cell r "latitude" = VInt 500
    /\ validate_coordinates (conv := decimal_conv)
         (cell r "latitude") (cell r "longitude") = Ok false
    /\ ~ (exists x : Q,
             row_getitem r "latitude" = Ok (Scalar (VFloat (Fin x)))).
Proof.
  eexists. eexists. split; [reflexivity |]. cbn.
  split; [left; reflexivity |].
  split; [reflexivity |]. split; [reflexivity |]. split; [reflexivity |].
  intros [x H]. discriminate H.
Qed.

(** ** A file that is not a CSV *)

Section Abort.
Context {conv : Conv}.

Lemma load_malformed (path what : string) (fs : string -> file) :
  fs path = Malformed -> String.eqb path "" = false ->
  load path what fs = ([], Raise ParserError).
Proof.
  intros H Hne. unfold load. rewrite H, Hne. reflexivity.
Qed.

Lemma load_cases (path what : string) (fs : string -> file) :
  String.eqb path "" = false ->
  fs path = Malformed
  \/ exists log p, load path what fs = (log, Ok p)
                   /\ Forall before_load log.
Proof.
  intros Hne. unfold load. rewrite Hne. cbn [negb andb].
  destruct (fs path) as [| | df] eqn:E; cbn [path_exists].
  - right. do 2 eexists. split; [reflexivity |].
    constructor; [| constructor]. right. right. eauto.
  - left. reflexivity.
  - right. destruct (parse_csv_total df) as [p Hp]. rewrite Hp.
    exists [], p. split; [reflexivity | constructor].
Qed.

(** C4, as the code has it.  When one of the two files exists and is not
    a CSV, the error of [read_csv] leaves [parse_csv] and [main]: the run
    ends with that error at the load, and all it has shown by then is the
    title, the sidebar and, if the URL file is missing, the warning for
    it.  No frame stands in for the file, and no metric, map, summary or
    preview is shown for either data set. *)
Theorem malformed_file_aborts (fs : string -> file)
        (cluster fast_csv : bool) :
  fs PATH_URL_CSV = Malformed \/ fs PATH_STORE_CSV = Malformed ->
  snd (main fs cluster fast_csv) = Raise ParserError
  /\ Forall before_load (fst (main fs cluster fast_csv)).
Proof.
  intros H. unfold main.
  destruct (@load_cases PATH_URL_CSV "URL Data" fs eq_refl)
    as [Hu | (log & p & Hu & Hlog)].
  - rewrite (@load_malformed PATH_URL_CSV "URL Data" fs Hu eq_refl). cbn.
    split; [reflexivity |].
    constructor; [left; reflexivity |].
    constructor; [right; left; eauto | constructor].
  - destruct H as [H | H].
    + rewrite (@load_malformed PATH_URL_CSV "URL Data" fs H eq_refl) in Hu.
      discriminate.
    + rewrite Hu, (@load_malformed PATH_STORE_CSV "Store Data" fs H eq_refl).
      cbn. split; [reflexivity |].
      constructor; [left; reflexivity |].
      constructor; [right; left; eauto |].
      rewrite app_nil_r. exact Hlog.
Qed.

End Abort.

(** A good URL file next to a store file that is not a CSV: the run ends
    with the parse error. *)
Lemma malformed_file_aborts_witness :
  snd (main (conv := decimal_conv) (files (Csv (point_csv 0 0)) Malformed)
            true false)
  = Raise ParserError
  /\ Forall before_load
       (fst (main (conv := decimal_conv)
                  (files (Csv (point_csv 0 0)) Malformed) true false)).
Proof.
  apply (malformed_file_aborts (conv := decimal_conv)).
  right. reflexivity.
Defined.

(** C4, as the specification words it, fails: with a good URL file and a
    store file that is not a CSV the page does not go through.  The run ends
    with the parse error, and neither the map nor a preview is shown, the
    ones of the good URL data set included. *)
Lemma malformed_file_counterexample :
  let run := main (conv := decimal_conv)
                  (files (Csv (point_csv 0 0)) Malformed) true false in
  ~ rendered run
  /\ snd run = Raise ParserError
  /\ fst run
     = [Markdown main_header;
        Sidebar [Header "⚙️ Map Settings";
                 Checkbox "Cluster locations" true;
                 Checkbox "High-speed for large CSVs (FastMarkerCluster)"
                          false]].
Proof.
  cbv zeta. split; [| split; reflexivity].
  intros [H _]. vm_compute in H. discriminate.
Qed.

(** ** Popups *)

Lemma getitem_missing (r : row) (k : string) :
  has_label r k = false -> row_getitem r k = Raise (KeyError k).
Proof.
  unfold row_getitem, values_at, has_label. intros H.
  replace (filter (fun p => String.eqb (fst p) k) r)
    with (@nil (string * value)).
  - reflexivity.
  - induction r as [| [k' v'] r IH]; [reflexivity |]. simpl in *.
    apply orb_false_iff in H. destruct H as [H1 H2].
    rewrite H1. apply IH. exact H2.
Qed.

(** C2 does not hold of the code: [popup_html] reads the fields [Latitude]
    and [Longitude], spelled with a capital, not the canonical [latitude]
    and [longitude] the loader adds.  On every row that has no field named
    [Latitude] it raises, and the error is [KeyError: 'Latitude'] once the
    name line is built. *)
Theorem popup_html_reads_capitalised
        (r : row) (postal_col name_col : option string) :
  has_label r "Latitude" = false ->
  (exists e, popup_html r postal_col name_col = Raise e)
  /\ (is_ok (resolved_field "<b>Name:</b> " r name_col) = true ->
      popup_html r postal_col name_col = Raise (KeyError "Latitude")).
Proof.
  intros H. unfold popup_html.
  destruct (resolved_field "<b>Name:</b> " r name_col) as [part | e];
    cbn [bind].
  - rewrite (getitem_missing r "Latitude" H). cbn [bind]. eauto.
  - split; [eauto | discriminate].
Qed.

(** The record (A) that the loader returns for the CSV of the example has
    no field [Latitude]: its popup is a [KeyError]. *)
Lemma popup_html_reads_capitalised_witness :
  has_label example_record "Latitude" = false
  /\ popup_html example_record None (Some "name")
     = Raise (KeyError "Latitude").
Proof.
  split; [reflexivity |].
  apply (popup_html_reads_capitalised example_record None (Some "name"));
    reflexivity.
Defined.

(** ** Layers and the map *)

Section MapFacts.
Context {conv : Conv}.

(** C9.  With two empty frames [build_map] returns, and what it returns
    is the world view: centre [20, 0], zoom 2, nothing added. *)
Theorem build_map_empty
        (url_df store_df : DataFrame) (cluster fast_csv : bool)
        (postal1 postal2 name1 name2 : option string) :
  df_empty url_df = true -> df_empty store_df = true ->
  build_map url_df store_df cluster fast_csv postal1 postal2 name1 name2
  = Ok {| center := (Fin 20, Fin 0); zoom_start := 2; controls := [] |}.
Proof.
  intros H1 H2. unfold build_map. rewrite H1, H2. reflexivity.
Qed.

(** Once the URL frame is not empty, the centre of the map is the mean of
    that frame alone. *)
Lemma build_map_center_url
      (url_df store_df : DataFrame) (cluster fast_csv : bool)
      (postal1 postal2 name1 name2 : option string) (m : Map) :
  df_empty url_df = false ->
  build_map url_df store_df cluster fast_csv
            postal1 postal2 name1 name2 = Ok m ->
  exists u,
    select url_df ["latitude"; "longitude"] = Ok u
    /\ column_mean u "latitude" = Ok (fst (center m))
    /\ column_mean u "longitude" = Ok (snd (center m)).
Proof.
  intros Hu. unfold build_map. rewrite Hu. cbn [andb negb].
  destruct (select url_df ["latitude"; "longitude"]) as [u | e];
    cbn [bind]; [| discriminate].
  unfold pd_concat. cbn [forallb flat_map]. rewrite app_nil_r.
  replace {| columns := columns u; rows := rows u |} with u
    by (destruct u; reflexivity).
  cbn [bind].
  destruct (column_mean u "latitude") as [lat | e] eqn:Elat;
    cbn [bind]; [| discriminate].
  destruct (column_mean u "longitude") as [lon | e] eqn:Elon;
    cbn [bind]; [| discriminate].
  unfold folium_Map. destruct (isnan lat || isnan lon);
    cbn [bind]; [discriminate |].
  destruct (add_layer url_df _ _ cluster fast_csv postal1 name1);
    cbn [bind]; [| discriminate].
  destruct (add_layer store_df _ _ cluster fast_csv postal2 name2);
    cbn [bind]; [| discriminate].
  intros E. injection E as <-. exists u. cbn. auto.
Qed.

End MapFacts.

(** The map of two missing files. *)
Lemma build_map_empty_witness :
  df_empty empty_frame = true
  /\ build_map (conv := decimal_conv) empty_frame empty_frame true false
               None None None None
     = Ok {| center := (Fin 20, Fin 0); zoom_start := 2; controls := [] |}.
Proof.
  split; [reflexivity |].
  apply (build_map_empty (conv := decimal_conv)); reflexivity.
Defined.

(** C1 does not hold of the code.  Whenever the URL layer is not empty, the
    centre of the map is the mean of the URL layer alone, whatever the store
    layer holds.  With the one record (0, 0) in the URL layer and the one
    record (10, 10) in the store layer, the mean over all records is (5, 5),
    and [build_map] centres the map at (0, 0); with the two layers exchanged
    it centres it at (10, 10). *)
Theorem build_map_center_url_only :
  (forall (conv : Conv) (url_df store_df : DataFrame)
          (cluster fast_csv : bool)
          (postal1 postal2 name1 name2 : option string) (m : Map),
      df_empty url_df = false ->
      build_map url_df store_df cluster fast_csv
                postal1 postal2 name1 name2 = Ok m ->
      exists u,
        select url_df ["latitude"; "longitude"] = Ok u
        /\ column_mean u "latitude" = Ok (fst (center m))
        /\ column_mean u "longitude" = Ok (snd (center m)))
  /\ exists u s m m',
      parse_csv (conv := decimal_conv) (Csv (point_csv 0 0)) = Ok u
      /\ parse_csv (conv := decimal_conv) (Csv (point_csv 10 10)) = Ok s
      /\ valid u = point_layer 0 0 /\ valid s = point_layer 10 10
      /\ build_map (conv := decimal_conv) (valid u) (valid s) true false
                   (postal_col u) (postal_col s) (name_col u) (name_col s)
         = Ok m
      /\ center m = (Fin 0, Fin 0)
      /\ build_map (conv := decimal_conv) (valid s) (valid u) true false
                   (postal_col s) (postal_col u) (name_col s) (name_col u)
         = Ok m'
      /\ center m' = (Fin 10, Fin 10)
      /\ centroid_of_all (valid u) (valid s) = Ok (Fin 5, Fin 5).
Proof.
  split.
  - intros conv url_df store_df cluster fast_csv
           postal1 postal2 name1 name2 m Hu Hm.
    eapply build_map_center_url; eassumption.
  - do 4 eexists. repeat split; reflexivity.
Qed.

(** ** The general statements at the examples *)

(** The counts of the CSV of the example, from the general statement. *)
Lemma loader_counts_witness :
  exists p,
    parse_csv (conv := decimal_conv) (Csv example_csv) = Ok p
    /\ valid_count p = len (valid p)
    /\ invalid_count p = len example_csv - valid_count p
    /\ valid_count p = 1 /\ invalid_count p = 2.
Proof.
  eexists. split; [reflexivity |].
  destruct (proj1 loader_counts decimal_conv example_csv _ eq_refl)
    as (H1 & H2 & _).
  split; [exact H1 |]. split; [exact H2 |]. split; reflexivity.
Defined.

(** The record (A) of the example, and the preview of a URL file with the
    one record (0, 0). *)
Lemma dataset_invariant_witness :
  (exists x y : Q,
      row_getitem example_record "latitude" = Ok (Scalar (VFloat (Fin x)))
      /\ row_getitem example_record "longitude"
         = Ok (Scalar (VFloat (Fin y)))
      /\ (inject_Z (-90) <= x)%Q /\ (x <= inject_Z 90)%Q
      /\ (inject_Z (-180) <= y)%Q /\ (y <= inject_Z 180)%Q)
  /\ (exists p,
         parse_csv (conv := decimal_conv) (Csv (point_csv 0 0)) = Ok p
         /\ 1 = valid_count p /\ 0 = invalid_count p).
Proof.
  split.
  - assert (Hnd : NoDup (columns example_csv))
      by (repeat constructor; simpl; intuition discriminate).
    destruct (proj1 dataset_invariant decimal_conv example_csv _
                    example_record eq_refl Hnd eq_refl eq_refl eq_refl
                    (or_introl eq_refl))
      as (x & y & H1 & H2 & H3 & H4 & H5 & H6 & _).
    exists x, y. auto 10.
  - destruct (proj2 dataset_invariant decimal_conv
                    (files (Csv (point_csv 0 0)) Missing) true false
                    "📊 URL Data (valid rows)"
                    [Write 1 0; Dataframe (head 25 (point_layer 0 0))] 1 0)
      as [[_ H] | [E _]].
    + vm_compute. do 12 right. left. reflexivity.
    + left. reflexivity.
    + exact H.
    + discriminate E.
Defined.

(** The map of the layers at (0, 0) and (10, 10): its centre is the mean of
    the first layer. *)
Lemma build_map_center_url_only_witness :
  df_empty (point_layer 0 0) = false
  /\ exists u,
       select (point_layer 0 0) ["latitude"; "longitude"] = Ok u
       /\ column_mean u "latitude" = Ok (Fin 0)
       /\ column_mean u "longitude" = Ok (Fin 0).
Proof.
  split; [reflexivity |].
  pose proof (proj1 build_map_center_url_only decimal_conv
                    (point_layer 0 0) (point_layer 10 10) true false
                    None None None None) as H.
  edestruct H as (u & H1 & H2 & H3).
  - reflexivity.
  - reflexivity.
  - exists u. split; [exact H1 |]. split; [exact H2 | exact H3].
Defined.

(** * Further properties *)

(** ** The validator on integers *)

Lemma Qle_bool_inject_Z (x y : Z) :
  Qle_bool (inject_Z x) (inject_Z y) = (x <=? y).
Proof. unfold Qle_bool, inject_Z. simpl. rewrite !Z.mul_1_r. reflexivity. Qed.

Lemma in_range_Z (lo hi z : Z) :
  in_range lo hi (num_of_Z z) = (lo <=? z) && (z <=? hi).
Proof. unfold in_range, num_of_Z. simpl. rewrite !Qle_bool_inject_Z. reflexivity. Qed.

Lemma float_int_bound_large : 180 < float_int_bound.
Proof. reflexivity. Qed.

(** X1.  On two integers [validate_coordinates] is the plain range test, also on
    integers too large for a float, where the conversion overflows and the
    answer is [False]. *)
Theorem validate_coordinates_int {conv : Conv} (a b : Z) :
  validate_coordinates (VInt a) (VInt b)
  = Ok ((-90 <=? a) && (a <=? 90) && ((-180 <=? b) && (b <=? 180))).
Proof.
  pose proof float_int_bound_large as Hb.
  unfold validate_coordinates. cbn [py_float].
  destruct (Z.abs a <? float_int_bound) eqn:Ea; cbn [bind try_except].
  - destruct (Z.abs b <? float_int_bound) eqn:Eb; cbn [bind try_except].
    + rewrite !in_range_Z. reflexivity.
    + apply Z.ltb_ge in Eb.
      replace ((-180 <=? b) && (b <=? 180)) with false.
      * rewrite andb_false_r. reflexivity.
      * symmetry. apply andb_false_iff.
        destruct (Z.leb_spec (-180) b); [right | left; reflexivity].
        apply Z.leb_gt. lia.
  - apply Z.ltb_ge in Ea.
    replace ((-90 <=? a) && (a <=? 90)) with false; [reflexivity |].
    symmetry. apply andb_false_iff.
    destruct (Z.leb_spec (-90) a); [right | left; reflexivity].
    apply Z.leb_gt. lia.
Qed.

(** ** The loader and the validator *)

Section LoaderMore.
Context {conv : Conv}.

Lemma passes_is_mask (a b : string) (r : row) :
  passes a b r = coordinate_mask (coerce_row a b r).
Proof.
  rewrite coordinate_mask_coerced. unfold passes, validate_coordinates.
  cbn [py_float bind try_except]. reflexivity.
Qed.

(** X2.  The rows the loader keeps are the rows that [validate_coordinates]
    accepts, once their two coordinates are coerced to numbers: the mask of
    lines 56-59 and the helper of lines 27-32 decide alike. *)
Theorem loader_keeps_what_validates
        (df : DataFrame) (p : parsed) (a b : string) :
  parse_csv (Csv df) = Ok p ->
  lat_col p = Some a -> lon_col p = Some b ->
  rows (valid p)
  = map (fun r => canonical_row (coerce_row a b r))
        (filter (passes a b) (rows df))
  /\ valid_count p = Z.of_nat (List.length (filter (passes a b) (rows df))).
Proof.
  intros Hp Ha Hb.
  pose proof (parse_csv_detected df Hp Ha Hb) as Hd.
  destruct (parse_csv_resolved df Hd) as (p' & Hp' & _ & _ & _ & Hr & Hc & _).
  assert (p' = p) by congruence. subst p'.
  assert (E : forall l : list row,
             filter (fun r => coordinate_mask (coerce_row a b r)) l
             = filter (passes a b) l).
  { intros l. apply filter_ext. intros r. symmetry. apply passes_is_mask. }
  split.
  - rewrite Hr, filter_map_swap, map_map, E. reflexivity.
  - rewrite Hc, filter_map_length, E. reflexivity.
Qed.

(** X4.  The two counts are never negative and add up to the number of rows
    read; no more rows are returned than were read. *)
Theorem loader_counts_bounds (df : DataFrame) (p : parsed) :
  parse_csv (Csv df) = Ok p ->
  0 <= valid_count p <= len df
  /\ 0 <= invalid_count p <= len df
  /\ valid_count p + invalid_count p = len df
  /\ len (valid p) = valid_count p.
Proof.
  intros Hp.
  destruct (detect_lat_lon df) as [[a b] |] eqn:E.
  - destruct (parse_csv_resolved df E)
      as (p' & Hp' & _ & _ & _ & Hr & Hc & Hi).
    assert (p' = p) by congruence. subst p'.
    assert (Hle : (List.length (filter coordinate_mask
                                       (map (coerce_row a b) (rows df)))
                   <= List.length (rows df))%nat).
    { etransitivity; [apply filter_length_le |].
      rewrite length_map. apply Nat.le_refl. }
    assert (Hlen : len (valid p) = valid_count p).
    { unfold len. rewrite Hr, length_map. symmetry. exact Hc. }
    unfold len in *. lia.
  - rewrite (parse_csv_unresolved df E) in Hp. injection Hp as <-.
    cbn. unfold len. lia.
Qed.

End LoaderMore.

Lemma loader_keeps_what_validates_witness :
  exists p,
    parse_csv (conv := decimal_conv) (Csv example_csv) = Ok p
    /\ rows (valid p) = [example_record]
    /\ valid_count p = 1.
Proof.
  eexists. split; [reflexivity |].
  destruct (loader_keeps_what_validates
              (conv := decimal_conv) example_csv (a := "lat") (b := "lng")
              eq_refl eq_refl eq_refl) as [H1 H2].
  split; [exact H1 | exact H2].
Defined.

Lemma loader_counts_bounds_witness :
  exists p,
    parse_csv (conv := decimal_conv) (Csv example_csv) = Ok p
    /\ 0 <= valid_count p <= 3 /\ 0 <= invalid_count p <= 3
    /\ valid_count p + invalid_count p = 3.
Proof.
  eexists. split; [reflexivity |].
  destruct (loader_counts_bounds (conv := decimal_conv) example_csv eq_refl)
    as (H1 & H2 & H3 & _).
  split; [exact H1 |]. split; [exact H2 | exact H3].
Defined.

(** ** The words the sniffer looks for *)

Lemma prefix_app (t u s : string) :
  prefix (t ++ u) s = true -> prefix t s = true.
Proof.
  revert s. induction t as [| c t IH]; intros s;
    [destruct s; reflexivity |].
  destruct s as [| d s]; simpl; [discriminate |].
  destruct (ascii_dec c d); [apply IH | discriminate].
Qed.

Lemma contains_app (t u s : string) :
  contains (t ++ u) s = true -> contains t s = true.
Proof.
  induction s as [| d s IH]; cbn [contains]; rewrite !orb_true_iff.
  - intros [H | H]; [left; eapply prefix_app; exact H | discriminate].
  - intros [H | H]; [left; eapply prefix_app; exact H | right; auto].
Qed.

Lemma orb_absorb (x y : bool) : (y = true -> x = true) -> x || y = x.
Proof. destruct x, y; intros H; try reflexivity. symmetry. apply H. reflexivity. Qed.

(** X5.  Half of the words of lines 43-44 and 65-66 decide nothing, because a
    shorter word of the same list is part of them: a name counts as a
    latitude name exactly when it contains "lat", as a longitude name when
    it contains "lon" or "lng", and as a postal name when it contains
    "postal", "zip", "post_code" or "pincode". *)
Theorem sniffer_words (s : string) :
  any_in lat_tokens s = contains "lat" s
  /\ any_in lon_tokens s = contains "lon" s || contains "lng" s
  /\ any_in postal_tokens s
     = contains "postal" s || contains "zip" s
       || contains "post_code" s || contains "pincode" s.
Proof.
  unfold any_in, lat_tokens, lon_tokens, postal_tokens. cbn [existsb].
  rewrite !orb_false_r.
  pose proof (contains_app "lat" "itude" s) as L1.
  pose proof (contains_app "lon" "g" s) as L2.
  pose proof (contains_app "lon" "gitude" s) as L3.
  pose proof (contains_app "postal" " code" s) as P1.
  pose proof (contains_app "zip" " code" s) as P2.
  pose proof (contains_app "zip" "code" s) as P3.
  pose proof (contains_app "zip" "_code" s) as P4.
  cbn [append] in *.
  split; [| split].
  - apply orb_absorb. exact L1.
  - destruct (contains "lon" s), (contains "long" s),
      (contains "longitude" s), (contains "lng" s);
      try reflexivity;
      first [discriminate (L2 eq_refl) | discriminate (L3 eq_refl)].
  - destruct (contains "postal" s), (contains "postal code" s),
      (contains "zip" s), (contains "zip code" s), (contains "zipcode" s),
      (contains "post_code" s), (contains "pincode" s),
      (contains "zip_code" s);
      try reflexivity;
      first [discriminate (P1 eq_refl) | discriminate (P2 eq_refl)
            | discriminate (P3 eq_refl) | discriminate (P4 eq_refl)].
Qed.

(** ** The columns of the returned frame *)

Lemma add_label_In (cols : list string) (k c : string) :
  In c (add_label cols k) <-> In c cols \/ c = k.
Proof.
  unfold add_label. destruct (mem k cols) eqn:E.
  - apply mem_In in E. split; [auto |]. intros [H | ->]; assumption.
  - rewrite in_app_iff. simpl. split.
    + intros [H | [H | []]]; auto.
    + intros [H | ->]; auto.
Qed.

Lemma hd_error_filter {A} (f : A -> bool) (l : list A) (a : A) :
  hd_error (filter f l) = Some a -> In a l /\ f a = true.
Proof.
  intros H. apply filter_In.
  destruct (filter f l) as [| x l']; [discriminate |].
  injection H as ->. left. reflexivity.
Qed.

Section Columns.
Context {conv : Conv}.

Lemma parse_csv_roles (df : DataFrame) (p : parsed) :
  parse_csv (Csv df) = Ok p ->
  postal_col p
  = hd_error (filter (fun c => any_in postal_tokens (lower c))
                     (columns (valid p)))
  /\ name_col p
     = hd_error (filter (fun c => mem (lower c) name_labels)
                        (columns (valid p))).
Proof.
  unfold parse_csv. cbn [read_csv bind].
  destruct (detect_lat_lon df) as [[a b] |]; intros H; injection H as <-;
    split; reflexivity.
Qed.

(** A column of the returned frame is a column of the file, or one of the
    two canonical columns. *)
Lemma valid_columns_origin (df : DataFrame) (p : parsed) (c : string) :
  parse_csv (Csv df) = Ok p -> In c (columns (valid p)) ->
  In c (columns df) \/ c = "latitude" \/ c = "longitude".
Proof.
  intros Hp Hc.
  destruct (detect_lat_lon df) as [[a b] |] eqn:E.
  - destruct (parse_csv_resolved df E) as (p' & Hp' & _ & _ & Hcols & _).
    assert (p' = p) by congruence. subst p'.
    rewrite Hcols in Hc. apply filter_In in Hc. destruct Hc as [Hc _].
    apply in_map_iff in Hc. destruct Hc as (k & <- & Hk).
    destruct (rename_cases k) as [[_ Ek] | [[_ Ek] | (N1 & N2 & Ek)]];
      cbv zeta in Ek; rewrite Ek; auto.
    left. apply add_label_In in Hk. destruct Hk as [Hk | Hk]; [| congruence].
    apply add_label_In in Hk. destruct Hk as [Hk | Hk]; [| congruence].
    exact Hk.
  - rewrite (parse_csv_unresolved df E) in Hp. injection Hp as <-.
    destruct Hc.
Qed.

(** Once the columns resolve, the returned frame has the two canonical
    columns. *)
Lemma valid_columns_canonical (df : DataFrame) (p : parsed) (a b : string) :
  parse_csv (Csv df) = Ok p ->
  lat_col p = Some a -> lon_col p = Some b ->
  In "latitude" (columns (valid p)) /\ In "longitude" (columns (valid p)).
Proof.
  intros Hp Ha Hb.
  pose proof (parse_csv_detected df Hp Ha Hb) as Hd.
  destruct (parse_csv_resolved df Hd) as (p' & Hp' & _ & _ & Hcols & _).
  assert (p' = p) by congruence. subst p'.
  rewrite Hcols. split; apply filter_In; (split; [| reflexivity]).
  - apply in_map_iff. exists "__lat". split; [reflexivity |].
    apply add_label_In. left. apply add_label_In. right. reflexivity.
  - apply in_map_iff. exists "__lon". split; [reflexivity |].
    apply add_label_In. right. reflexivity.
Qed.

(** X6.  The postal column and the name column the loader reports are columns of
    the file itself, found again in the returned frame, never the canonical
    coordinate columns: the postal column has one of the postal words in
    its lowercased name, the name column is named name, title, label or
    location_name up to case. *)
Theorem loader_roles_are_file_columns (df : DataFrame) (p : parsed) :
  parse_csv (Csv df) = Ok p ->
  (forall c, postal_col p = Some c ->
             In c (columns df) /\ In c (columns (valid p))
             /\ any_in postal_tokens (lower c) = true)
  /\ (forall c, name_col p = Some c ->
                In c (columns df) /\ In c (columns (valid p))
                /\ mem (lower c) name_labels = true).
Proof.
  intros Hp. destruct (parse_csv_roles df Hp) as [Hpostal Hname].
  split; intros c Hc.
  - rewrite Hpostal in Hc. apply hd_error_filter in Hc.
    destruct Hc as [Hin Hf]. repeat split; try assumption.
    destruct (valid_columns_origin df c Hp Hin) as [H | [-> | ->]];
      [exact H | discriminate Hf | discriminate Hf].
  - rewrite Hname in Hc. apply hd_error_filter in Hc.
    destruct Hc as [Hin Hf]. repeat split; try assumption.
    destruct (valid_columns_origin df c Hp Hin) as [H | [-> | ->]];
      [exact H | discriminate Hf | discriminate Hf].
Qed.

End Columns.

Lemma loader_roles_are_file_columns_witness :
  exists p,
    parse_csv (conv := decimal_conv) (Csv example_csv) = Ok p
    /\ name_col p = Some "name" /\ In "name" (columns example_csv).
Proof.
  eexists. split; [reflexivity |]. split; [reflexivity |].
  destruct (loader_roles_are_file_columns
              (conv := decimal_conv) example_csv eq_refl) as [_ H].
  destruct (H "name" eq_refl) as [Hin _]. exact Hin.
Defined.

(** ** The size of the returned frame *)

Section FastLayer.
Context {conv : Conv}.

Lemma valid_count_is_len (df : DataFrame) (p : parsed) :
  parse_csv (Csv df) = Ok p -> valid_count p = len (valid p).
Proof.
  intros Hp.
  destruct (detect_lat_lon df) as [[a b] |] eqn:E.
  - destruct (parse_csv_resolved df E) as (p' & Hp' & _ & _ & _ & Hr & Hc & _).
    assert (p' = p) by congruence. subst p'.
    unfold len. rewrite Hr, length_map. exact Hc.
  - rewrite (parse_csv_unresolved df E) in Hp. injection Hp as <-.
    reflexivity.
Qed.

Lemma valid_nonempty_resolved (df : DataFrame) (p : parsed) :
  parse_csv (Csv df) = Ok p -> df_empty (valid p) = false ->
  exists a b, lat_col p = Some a /\ lon_col p = Some b.
Proof.
  intros Hp He.
  destruct (detect_lat_lon df) as [[a b] |] eqn:E.
  - destruct (parse_csv_resolved df E) as (p' & Hp' & Ha & Hb & _).
    assert (p' = p) by congruence. subst p'. eauto.
  - rewrite (parse_csv_unresolved df E) in Hp. injection Hp as <-.
    discriminate He.
Qed.

Lemma valid_empty_count (df : DataFrame) (p : parsed) :
  parse_csv (Csv df) = Ok p -> df_empty (valid p) = true ->
  valid_count p = 0.
Proof.
  intros Hp He. rewrite (valid_count_is_len df Hp). unfold len.
  destruct (detect_lat_lon df) as [[a b] |] eqn:E.
  - destruct (parse_csv_resolved df E) as (p' & Hp' & Ha & Hb & _).
    assert (p' = p) by congruence. subst p'.
    destruct (valid_columns_canonical df Hp Ha Hb) as [H1 _].
    unfold df_empty in He.
    destruct (columns (valid p)); [destruct H1 |].
    destruct (rows (valid p)); [reflexivity | discriminate].
  - rewrite (parse_csv_unresolved df E) in Hp. injection Hp as <-.
    reflexivity.
Qed.

End FastLayer.

(** ** Tooltips and popups *)

Lemma row_get_missing (r : row) (k : string) :
  has_label r k = false -> row_get r k = None.
Proof.
  intros H. unfold row_get. rewrite (getitem_missing r k H). reflexivity.
Qed.

Lemma has_label_values (r : row) (k : string) :
  has_label r k = true -> values_at r k <> [].
Proof.
  unfold has_label, values_at.
  induction r as [| [k' v'] r IH]; [discriminate |].
  cbn [existsb filter fst]. destruct (String.eqb k' k); [discriminate |].
  exact IH.
Qed.

Lemma present_nodup (r : row) (k : string) :
  NoDup (labels r) ->
  (present r k = Ok false)
  \/ (present r k = Ok true /\ exists v, row_getitem r k = Ok (Scalar v)).
Proof.
  intros Hnd. unfold present.
  destruct (has_label r k) eqn:E; [| left; reflexivity].
  apply has_label_values in E. unfold row_getitem.
  destruct (values_at_nodup r k Hnd) as [H | [v H]]; [contradiction |].
  rewrite H. cbn [bind notna_truth].
  destruct (notna v); [right | left]; eauto.
Qed.


Lemma resolved_present_nodup (r : row) (col : option string) :
  NoDup (labels r) ->
  (resolved_present r col = Ok false)
  \/ (resolved_present r col = Ok true
      /\ exists k v, col = Some k /\ row_getitem r k = Ok (Scalar v)).
Proof.
  intros Hnd. destruct col as [k |]; [| left; reflexivity].
  destruct k as [| c k]; [left; reflexivity |].
  cbn [resolved_present].
  destruct (present_nodup r (String c k) Hnd) as [H | [H [v Hv]]];
    [left; exact H | right; eauto].
Qed.



Lemma getitem_nodup (r : row) (k : string) :
  NoDup (labels r) -> has_label r k = true ->
  row_getitem r k = Ok (Scalar (cell r k)).
Proof.
  intros Hnd H. apply has_label_values in H. unfold row_getitem, cell.
  destruct (values_at_nodup r k Hnd) as [E | [v E]]; [contradiction |].
  rewrite E. reflexivity.
Qed.

Lemma resolved_present_shown (r : row) (col : option string) :
  NoDup (labels r) -> resolved_present r col = Ok (field_shown r col).
Proof.
  intros Hnd. destruct col as [k |]; [| reflexivity].
  destruct k as [| c k]; [reflexivity |].
  cbn [resolved_present field_shown truthy String.eqb negb andb].
  unfold present. destruct (has_label r (String c k)) eqn:E;
    [| reflexivity].
  rewrite (getitem_nodup r (String c k) Hnd E). reflexivity.
Qed.



(** X9.  A row without a [latitude] or without a [longitude] field still gets a
    tooltip: [tooltip_html] reads the two fields with [get], raises no
    [KeyError] for them and writes "Latitude: n/a, Longitude: n/a" in place
    of the coordinates; with labels that are all different it always
    returns. *)
Theorem tooltip_html_without_coordinates
        {conv : Conv} (r : row) (postal_col name_col : option string) :
  has_label r "latitude" = false \/ has_label r "longitude" = false ->
  tooltip_html r None None = Ok [Lit "Latitude: n/a, Longitude: n/a"]
  /\ (forall h, tooltip_html r postal_col name_col = Ok h ->
                In (Lit "Latitude: n/a, Longitude: n/a") h)
  /\ (NoDup (labels r) ->
      exists h, tooltip_html r postal_col name_col = Ok h).
Proof.
  intros H.
  assert (E : match row_get r "latitude", row_get r "longitude" with
              | Some lat, Some lon =>
                  lat <- item_float lat ;;
                  lon <- item_float lon ;;
                  Ok [Lit "Latitude: "; Fixed6 lat;
                      Lit ", Longitude: "; Fixed6 lon]
              | _, _ => Ok [Lit "Latitude: n/a, Longitude: n/a"]
              end = Ok [Lit "Latitude: n/a, Longitude: n/a"]).
  { destruct H as [H | H]; rewrite (row_get_missing r _ H);
      [| destruct (row_get r "latitude")]; reflexivity. }
  unfold tooltip_html. cbv zeta. rewrite E. clear E.
  split; [reflexivity |]. split.
  - intros h.
    destruct (resolved_present r name_col) as [bn |]; cbn [bind];
      [| discriminate].
    destruct (match bn, name_col with
              | true, Some k =>
                  x <- row_getitem r k ;;
                  Ok [Lit "<b>"; Str x; Lit "</b><br>"]
              | _, _ => Ok []
              end) as [name_line |]; cbn [bind]; [| discriminate].
    destruct (resolved_present r postal_col) as [bp |]; cbn [bind];
      [| discriminate].
    destruct (match bp, postal_col with
              | true, Some k =>
                  x <- row_getitem r k ;; Ok [Lit "<br>Postal Code: "; Str x]
              | _, _ => Ok []
              end) as [postal_line |]; cbn [bind]; [| discriminate].
    intros Hh. injection Hh as <-.
    apply in_or_app. right. left. reflexivity.
  - intros Hnd.
    destruct (resolved_present_nodup r name_col Hnd)
      as [-> | [-> (k & v & -> & ->)]]; cbn [bind];
      destruct (resolved_present_nodup r postal_col Hnd)
        as [-> | [-> (k' & v' & -> & ->)]]; cbn [bind]; eauto.
Qed.

(** X17.  On a row whose labels are all different and whose fields
    [latitude] and [longitude] are there and not [None], [tooltip_html]
    is settled by the row: it raises exactly when [float] raises on one of
    the two fields, the latitude first, and otherwise returns the name
    line, then "Latitude: x, Longitude: y" for the [float] of the two
    fields, then the postal line.  The name line is the bold text of the
    name field and the postal line the text of the postal field, each
    shown only when its column is named, is a field of the row and is not
    null. *)
Theorem tooltip_html_with_coordinates
        {conv : Conv} (r : row) (postal_col name_col : option string)
        (lat lon : value) :
  NoDup (labels r) ->
  row_get r "latitude" = Some (Scalar lat) ->
  row_get r "longitude" = Some (Scalar lon) ->
  tooltip_html r postal_col name_col
  = (x <- py_float lat ;;
     y <- py_float lon ;;
     Ok (tooltip_line [Lit "<b>"] [Lit "</b><br>"] r name_col
         ++ [Lit "Latitude: "; Fixed6 x; Lit ", Longitude: "; Fixed6 y]
         ++ tooltip_line [Lit "<br>Postal Code: "] [] r postal_col)).
Proof.
  intros Hnd Hlat Hlon. unfold tooltip_html. cbv zeta.
  rewrite Hlat, Hlon. cbn [item_float].
  rewrite !(resolved_present_shown _ _ Hnd). cbn [bind].
  unfold tooltip_line.
  destruct name_col as [kn |]; destruct postal_col as [kp |].
  - destruct (field_shown r (Some kn)) eqn:En;
      destruct (field_shown r (Some kp)) eqn:Ep;
      repeat match goal with
             | H : field_shown r (Some ?k) = true |- _ =>
                 let H' := fresh in
                 assert (H' : has_label r k = true)
                   by (cbn [field_shown] in H;
                       destruct (truthy (Some k)); [| discriminate];
                       destruct (has_label r k);
                       [reflexivity | discriminate]);
                 rewrite (getitem_nodup r k Hnd H'); clear H
             end;
      cbn [bind]; destruct (py_float lat); cbn [bind];
        try reflexivity; destruct (py_float lon); reflexivity.
  - destruct (field_shown r (Some kn)) eqn:En;
      repeat match goal with
             | H : field_shown r (Some ?k) = true |- _ =>
                 let H' := fresh in
                 assert (H' : has_label r k = true)
                   by (cbn [field_shown] in H;
                       destruct (truthy (Some k)); [| discriminate];
                       destruct (has_label r k);
                       [reflexivity | discriminate]);
                 rewrite (getitem_nodup r k Hnd H'); clear H
             end;
      cbn [bind]; destruct (py_float lat); cbn [bind];
        try reflexivity; destruct (py_float lon); reflexivity.
  - destruct (field_shown r (Some kp)) eqn:Ep;
      repeat match goal with
             | H : field_shown r (Some ?k) = true |- _ =>
                 let H' := fresh in
                 assert (H' : has_label r k = true)
                   by (cbn [field_shown] in H;
                       destruct (truthy (Some k)); [| discriminate];
                       destruct (has_label r k);
                       [reflexivity | discriminate]);
                 rewrite (getitem_nodup r k Hnd H'); clear H
             end;
      cbn [bind]; destruct (py_float lat); cbn [bind];
        try reflexivity; destruct (py_float lon); reflexivity.
  - cbn [bind]. destruct (py_float lat); cbn [bind];
      try reflexivity; destruct (py_float lon); reflexivity.
Qed.


Lemma tooltip_html_without_coordinates_witness :
  has_label [("lat", VStr "10")] "latitude" = false
  /\ tooltip_html (conv := decimal_conv) [("lat", VStr "10")] None None
     = Ok [Lit "Latitude: n/a, Longitude: n/a"].
Proof.
  split; [reflexivity |].
  apply (tooltip_html_without_coordinates
           (conv := decimal_conv) [("lat", VStr "10")] None None).
  left. reflexivity.
Defined.

(** ** More on the map *)

Lemma mapM_fails {A B} (f : A -> result B) (l : list A) (a : A) :
  In a l -> is_ok (f a) = false -> is_ok (mapM f l) = false.
Proof.
  induction l as [| x l IH]; [intros [] |].
  intros [-> | Hin] Ha; cbn [mapM].
  - destruct (f a); [discriminate | reflexivity].
  - destruct (f x); [| reflexivity]. cbn [bind].
    specialize (IH Hin Ha). destruct (mapM f l); [discriminate | reflexivity].
Qed.

Section MapMore.
Context {conv : Conv}.

Lemma marker_needs_capitalised
      (color : string) (postal_col name_col : option string) (r : row) :
  has_label r "Latitude" = false ->
  is_ok (marker color postal_col name_col r) = false.
Proof.
  intros H. unfold marker.
  destruct (row_getitem r "latitude"); [| reflexivity]. cbn [bind].
  destruct (row_getitem r "longitude"); [| reflexivity]. cbn [bind].
  destruct (tooltip_html r postal_col name_col); [| reflexivity]. cbn [bind].
  unfold popup_html.
  destruct (resolved_field "<b>Name:</b> " r name_col); [| reflexivity].
  cbn [bind]. rewrite (getitem_missing r "Latitude" H). reflexivity.
Qed.

Lemma add_layer_needs_capitalised
      (df : DataFrame) (color layer_name : string) (cluster fast : bool)
      (postal_col name_col : option string) (r : row) :
  cluster && fast = false -> df_empty df = false ->
  In r (rows df) -> has_label r "Latitude" = false ->
  is_ok (add_layer df color layer_name cluster fast postal_col name_col)
  = false.
Proof.
  intros Hcf He Hin Hr. unfold add_layer. rewrite He, Hcf.
  pose proof (mapM_fails (marker color postal_col name_col) (rows df) r Hin
                         (marker_needs_capitalised color postal_col name_col
                                                   r Hr)) as Hm.
  destruct (mapM (marker color postal_col name_col) (rows df));
    [discriminate | reflexivity].
Qed.

(** C10.  With the fast setting off [add_layer] runs the same code for
    both cluster settings, and a layer it returns for a frame that is not
    empty is the [MarkerCluster] of the markers of all rows, with the
    options maxClusterRadius 50, spiderfyOnMaxZoom, showCoverageOnHover
    and zoomToBoundsOnClick.  But it does not always return one: the popup
    of each marker reads the fields [Latitude] and [Longitude], so a frame
    with one record that has no field [Latitude] gets no layer, whatever
    the cluster setting is.  The frame the loader returns for the CSV of
    the example is such a frame: called with that frame and the name
    column the loader found, [add_layer] raises [KeyError]. *)
Theorem add_layer_detailed_needs_popups :
  (forall (df : DataFrame) (color layer_name : string) (cluster : bool)
          (postal_col name_col : option string),
      df_empty df = false ->
      (forall layer,
          add_layer df color layer_name cluster false postal_col name_col
          = Ok layer ->
          exists markers,
            mapM (marker color postal_col name_col) (rows df) = Ok markers
            /\ List.length markers = List.length (rows df)
            /\ layer
               = {| group_name := layer_name;
                    children :=
                      [MarkerCluster (layer_name ++ " Clusters")%string
                         {| maxClusterRadius := 50;
                            spiderfyOnMaxZoom := true;
                            showCoverageOnHover := true;
                            zoomToBoundsOnClick := true |}
                         markers] |})
      /\ (forall r, In r (rows df) -> has_label r "Latitude" = false ->
                    is_ok (add_layer df color layer_name cluster false
                                     postal_col name_col) = false))
  /\ (forall cluster : bool,
         add_layer example_layer "green" "URL Data (Green)" cluster false
                   None (Some "name")
         = Raise (KeyError "Latitude"))
  /\ (exists p,
         parse_csv (conv := decimal_conv) (Csv example_csv) = Ok p
         /\ valid p = example_layer
         /\ postal_col p = None /\ name_col p = Some "name").
Proof.
  split.
  - intros df color layer_name cluster postal_col name_col He. split.
    + unfold add_layer. rewrite He, andb_false_r.
      destruct (mapM (marker color postal_col name_col) (rows df))
        as [ms | e] eqn:Hms; cbn [bind]; [| discriminate].
      intros layer H. injection H as <-. exists ms.
      split; [reflexivity |]. split; [| reflexivity].
      eapply mapM_length. exact Hms.
    + intros r Hin Hr.
      apply (add_layer_needs_capitalised df color layer_name cluster false
               postal_col name_col r); [apply andb_false_r | | |];
        assumption.
  - split; [intros [|]; reflexivity |].
    eexists. split; [reflexivity |]. repeat split.
Qed.

(** X10.  Unless both settings are on, [build_map] returns no map as soon as a
    layer that is not empty holds one record without a field [Latitude]:
    the popup of that record cannot be built, and the error leaves
    [add_layer] and [build_map]. *)
Theorem build_map_detailed_needs_capitalised
        (url_df store_df : DataFrame) (cluster fast_csv : bool)
        (postal1 postal2 name1 name2 : option string) (r : row) :
  cluster && fast_csv = false ->
  (df_empty url_df = false /\ In r (rows url_df))
  \/ (df_empty store_df = false /\ In r (rows store_df)) ->
  has_label r "Latitude" = false ->
  is_ok (build_map url_df store_df cluster fast_csv
                   postal1 postal2 name1 name2) = false.
Proof.
  intros Hcf Hin Hr. unfold build_map.
  assert (He : df_empty url_df && df_empty store_df = false).
  { destruct Hin as [[H _] | [H _]]; rewrite H;
      [reflexivity | apply andb_false_r]. }
  rewrite He.
  destruct (if negb (df_empty url_df)
            then u <- select url_df ["latitude"; "longitude"] ;; Ok [u]
            else if negb (df_empty store_df)
                 then s <- select store_df ["latitude"; "longitude"] ;;
                      Ok ([] ++ [s])
                 else Ok []) as [frames |]; [| reflexivity].
  cbn [bind]. destruct (pd_concat frames) as [base |]; [| reflexivity].
  cbn [bind].
  destruct (column_mean base "latitude") as [lat |]; [| reflexivity].
  cbn [bind].
  destruct (column_mean base "longitude") as [lon |]; [| reflexivity].
  cbn [bind]. destruct (folium_Map lat lon 9) as [m |]; [| reflexivity].
  cbn [bind].
  destruct Hin as [[H Hin] | [H Hin]].
  - pose proof (add_layer_needs_capitalised
                  url_df "green" "URL Data (Green)" cluster fast_csv
                  postal1 name1 r Hcf H Hin Hr) as Hl.
    destruct (add_layer url_df "green" "URL Data (Green)" cluster fast_csv
                        postal1 name1); [discriminate | reflexivity].
  - destruct (add_layer url_df "green" "URL Data (Green)" cluster fast_csv
                        postal1 name1); [| reflexivity].
    cbn [bind].
    pose proof (add_layer_needs_capitalised
                  store_df "blue" "Store Data (Blue)" cluster fast_csv
                  postal2 name2 r Hcf H Hin Hr) as Hl.
    destruct (add_layer store_df "blue" "Store Data (Blue)" cluster fast_csv
                        postal2 name2); [discriminate | reflexivity].
Qed.

(** X11.  When the URL frame is empty and the store frame is not, the centre of
    the map is the mean of the store frame. *)
Theorem build_map_center_store
        (url_df store_df : DataFrame) (cluster fast_csv : bool)
        (postal1 postal2 name1 name2 : option string) (m : Map) :
  df_empty url_df = true -> df_empty store_df = false ->
  build_map url_df store_df cluster fast_csv
            postal1 postal2 name1 name2 = Ok m ->
  exists s,
    select store_df ["latitude"; "longitude"] = Ok s
    /\ column_mean s "latitude" = Ok (fst (center m))
    /\ column_mean s "longitude" = Ok (snd (center m)).
Proof.
  intros Hu Hs. unfold build_map. rewrite Hu, Hs. cbn [andb negb].
  destruct (select store_df ["latitude"; "longitude"]) as [s | e];
    cbn [bind]; [| discriminate].
  unfold pd_concat. cbn [app forallb flat_map]. rewrite app_nil_r.
  replace {| columns := columns s; rows := rows s |} with s
    by (destruct s; reflexivity).
  cbn [bind].
  destruct (column_mean s "latitude") as [lat | e] eqn:Elat;
    cbn [bind]; [| discriminate].
  destruct (column_mean s "longitude") as [lon | e] eqn:Elon;
    cbn [bind]; [| discriminate].
  unfold folium_Map. destruct (isnan lat || isnan lon);
    cbn [bind]; [discriminate |].
  destruct (add_layer url_df _ _ cluster fast_csv postal1 name1);
    cbn [bind]; [| discriminate].
  destruct (add_layer store_df _ _ cluster fast_csv postal2 name2);
    cbn [bind]; [| discriminate].
  intros E. injection E as <-. exists s. cbn. auto.
Qed.

End MapMore.

(** ** The centre of the map lies on the globe *)

Lemma fold_num_add_bounds (lo hi : Q) (qs : list Q) (a : Q) :
  Forall (fun q => lo <= q /\ q <= hi)%Q qs ->
  exists s,
    fold_left num_add (map Fin qs) (Fin a) = Fin s
    /\ (a + inject_Z (Z.of_nat (List.length qs)) * lo <= s)%Q
    /\ (s <= a + inject_Z (Z.of_nat (List.length qs)) * hi)%Q.
Proof.
  intros H. revert a. induction H as [| q qs [Hlo Hhi] _ IH]; intros a.
  - exists a. cbn [map fold_left List.length Z.of_nat].
    change (inject_Z 0) with 0%Q. split; [reflexivity |]. split; lra.
  - cbn [map fold_left num_add List.length].
    destruct (IH (Qred (a + q))) as (s & Es & H1 & H2).
    exists s. split; [exact Es |].
    rewrite Qred_correct in H1, H2.
    rewrite Nat2Z.inj_succ, <- Z.add_1_r, inject_Z_plus.
    change (inject_Z 1) with 1%Q.
    split; lra.
Qed.

Lemma numbers_of_values (lo hi : Q) (vs : list value) :
  Forall (fun v => exists q, v = VFloat (Fin q) /\ lo <= q /\ q <= hi)%Q vs ->
  exists qs,
    vs = map (fun q => VFloat (Fin q)) qs
    /\ Forall (fun q => lo <= q /\ q <= hi)%Q qs.
Proof.
  induction 1 as [| v vs (q & -> & Hq) _ (qs & -> & Hqs)].
  - exists []. split; [reflexivity | constructor].
  - exists (q :: qs). split; [reflexivity | constructor; assumption].
Qed.

Lemma mapM_as_number_fin (qs : list Q) :
  mapM as_number (map (fun q => VFloat (Fin q)) qs) = Ok (map Fin qs).
Proof.
  induction qs as [| q qs IH]; [reflexivity |].
  cbn [map mapM as_number bind]. rewrite IH. reflexivity.
Qed.

Lemma filter_fin (qs : list Q) :
  filter (fun x => negb (isnan x)) (map Fin qs) = map Fin qs.
Proof.
  induction qs as [| q qs IH]; [reflexivity |].
  cbn [map filter isnan negb]. rewrite IH. reflexivity.
Qed.

(** The mean of numbers between two bounds lies between the bounds. *)
Lemma series_mean_bounds (lo hi : Q) (vs : list value) :
  vs <> [] ->
  Forall (fun v => exists q, v = VFloat (Fin q) /\ lo <= q /\ q <= hi)%Q vs ->
  exists m, series_mean vs = Ok (Fin m) /\ (lo <= m)%Q /\ (m <= hi)%Q.
Proof.
  intros Hne H. destruct (numbers_of_values H) as (qs & -> & Hqs).
  unfold series_mean. rewrite mapM_as_number_fin. cbn [bind].
  rewrite filter_fin.
  destruct qs as [| q qs]; [contradiction Hne; reflexivity |].
  destruct (@fold_num_add_bounds lo hi (q :: qs) 0 Hqs)
    as (s & Es & H1 & H2).
  cbn [map] in Es |- *. cbv beta iota. rewrite Es. cbn [num_div].
  replace (List.length (Fin q :: map Fin qs))
    with (List.length (q :: qs))
    by (cbn [List.length]; rewrite length_map; reflexivity).
  eexists. split; [reflexivity |].
  set (n := inject_Z (Z.of_nat (List.length (q :: qs)))) in *.
  assert (Hn : (0 < n)%Q).
  { unfold n. change 0%Q with (inject_Z 0). rewrite <- Zlt_Qlt.
    cbn [List.length]. lia. }
  rewrite Qred_correct. split.
  - apply Qle_shift_div_l; [exact Hn | lra].
  - apply Qle_shift_div_r; [exact Hn | lra].
Qed.

Lemma values_at_concat (r1 r2 : row) (k : string) :
  values_at (r1 ++ r2) k = values_at r1 k ++ values_at r2 k.
Proof. unfold values_at. rewrite filter_app, map_app. reflexivity. Qed.

Lemma values_at_pairs (k k' : string) (vs : list value) :
  values_at (map (pair k) vs) k' = if String.eqb k k' then vs else [].
Proof.
  unfold values_at. induction vs as [| v vs IH]; cbn [map filter fst].
  - destruct (String.eqb k k'); reflexivity.
  - destruct (String.eqb k k') eqn:E; cbn [map snd]; rewrite IH;
      reflexivity.
Qed.

Lemma cell_after_absent (r r' : row) (k : string) :
  has_label r k = false -> cell (r ++ r') k = cell r' k.
Proof.
  intros H. unfold cell. rewrite values_at_concat.
  rewrite (values_at_absent r k); [reflexivity |].
  apply mem_false. rewrite <- has_label_labels. exact H.
Qed.

(** The two means [build_map] takes, for a frame with one column
    [latitude] and one column [longitude]. *)
Lemma select_means (df : DataFrame) :
  filter (String.eqb "latitude") (columns df) = ["latitude"] ->
  filter (String.eqb "longitude") (columns df) = ["longitude"] ->
  exists u,
    select df ["latitude"; "longitude"] = Ok u
    /\ column_mean u "latitude" = series_mean (column_values df "latitude")
    /\ column_mean u "longitude"
       = series_mean (column_values df "longitude").
Proof.
  intros H1 H2.
  assert (M1 : mem "latitude" (columns df) = true).
  { apply mem_In.
    assert (H : In "latitude" (filter (String.eqb "latitude") (columns df)))
      by (rewrite H1; left; reflexivity).
    apply filter_In in H. tauto. }
  assert (M2 : mem "longitude" (columns df) = true).
  { apply mem_In.
    assert (H : In "longitude" (filter (String.eqb "longitude") (columns df)))
      by (rewrite H2; left; reflexivity).
    apply filter_In in H. tauto. }
  unfold select. cbn [find]. rewrite M1, M2. cbn [negb].
  eexists. split; [reflexivity |].
  unfold column_mean, column_values. cbn [columns rows flat_map].
  rewrite H1, H2. cbn [app filter String.eqb Ascii.eqb Bool.eqb].
  rewrite !map_map.
  split; f_equal; apply map_ext; intros r; unfold cell;
    rewrite !values_at_concat, !values_at_pairs; cbn; rewrite ?app_nil_r;
    reflexivity.
Qed.

Section Centre.
Context {conv : Conv}.

Lemma valid_frame_shape (df : DataFrame) (p : parsed) (a b : string) :
  well_formed df = true ->
  mem "__lat" (columns df) = false ->
  mem "__lon" (columns df) = false ->
  parse_csv (Csv df) = Ok p ->
  lat_col p = Some a -> lon_col p = Some b ->
  columns (valid p) = columns df ++ ["latitude"; "longitude"]
  /\ rows (valid p) = map (augmented a b) (filter (survives a b) (rows df)).
Proof.
  intros Hwf Hlat Hlon Hp Ha Hb.
  pose proof (parse_csv_detected df Hp Ha Hb) as Hd.
  destruct (detect_lat_lon_In df Hd) as [_ Hbin].
  apply mem_false in Hlat, Hlon.
  assert (Hb' : b <> "__lat") by (intros ->; tauto).
  destruct (parse_csv_resolved df Hd)
    as (p' & Hp' & _ & _ & Hcols & Hrows & _).
  assert (p' = p) by congruence. subst p'.
  split.
  - rewrite Hcols. unfold add_label.
    replace (mem "__lat" (columns df)) with false
      by (symmetry; apply mem_false; exact Hlat).
    replace (mem "__lon" (columns df ++ ["__lat"])) with false.
    + rewrite <- app_assoc. cbn [app]. rewrite map_app, filter_app.
      rewrite relabel_fresh by assumption.
      rewrite keep_fresh by assumption. reflexivity.
    + symmetry. apply mem_false. rewrite in_app_iff. simpl.
      intros [H | [H | []]]; [tauto | discriminate].
  - rewrite Hrows, filter_map_swap, map_map.
    assert (Hfresh : forall r, In r (rows df) ->
               has_label r "__lat" = false /\ has_label r "__lon" = false).
    { intros r Hr. rewrite !has_label_labels.
      rewrite (well_formed_labels df r Hwf Hr).
      split; apply mem_false; assumption. }
    rewrite (filter_ext_in _ (survives a b)).
    + apply map_ext_in. intros r Hr. apply filter_In in Hr.
      destruct Hr as [Hr _]. destruct (Hfresh r Hr).
      apply coerce_row_fresh; assumption.
    + intros r Hr. apply coordinate_mask_survives. exact Hb'.
Qed.

Lemma filter_eqb_absent (k : string) (cols : list string) :
  mem k cols = false -> filter (String.eqb k) cols = [].
Proof.
  unfold mem. induction cols as [| c cols IH]; [reflexivity |].
  cbn [existsb filter]. intros H. apply orb_false_iff in H.
  destruct H as [H1 H2]. rewrite H1. apply IH. exact H2.
Qed.

(** X12.  The map of a loaded data set is centred on the globe.  For a CSV as
    [read_csv] parses it, with no column that already bears one of the
    names latitude, longitude, __lat, __lon, and with a valid row: whenever
    [build_map] returns a map for the loaded frame as its URL layer, the
    centre of the map is a finite point with its latitude in [-90, 90] and
    its longitude in [-180, 180]. *)
Theorem loaded_map_center_on_globe
        (df store_df : DataFrame) (p : parsed) (cluster fast_csv : bool)
        (postal1 postal2 name1 name2 : option string) (m : Map) :
  well_formed df = true ->
  mem "__lat" (columns df) = false ->
  mem "__lon" (columns df) = false ->
  mem "latitude" (columns df) = false ->
  mem "longitude" (columns df) = false ->
  parse_csv (Csv df) = Ok p ->
  df_empty (valid p) = false ->
  build_map (valid p) store_df cluster fast_csv
            postal1 postal2 name1 name2 = Ok m ->
  exists x y : Q,
    center m = (Fin x, Fin y)
    /\ (inject_Z (-90) <= x)%Q /\ (x <= inject_Z 90)%Q
    /\ (inject_Z (-180) <= y)%Q /\ (y <= inject_Z 180)%Q.
Proof.
  intros Hwf Hs1 Hs2 Hc1 Hc2 Hp He Hm.
  destruct (valid_nonempty_resolved df Hp He) as (a & b & Ha & Hb).
  destruct (valid_frame_shape df Hwf Hs1 Hs2 Hp Ha Hb) as [Hcols Hrows].
  destruct (build_map_center_url _ _ _ _ _ _ _ _ He Hm)
    as (u & Hu & Hlat & Hlon).
  destruct (select_means (valid p)) as (u' & Hu' & Mlat & Mlon).
  { rewrite Hcols, filter_app, (filter_eqb_absent _ _ Hc1). reflexivity. }
  { rewrite Hcols, filter_app, (filter_eqb_absent _ _ Hc2). reflexivity. }
  assert (u' = u) by congruence. subst u'.
  rewrite Mlat in Hlat. rewrite Mlon in Hlon.
  assert (Hne : rows (valid p) <> []).
  { unfold df_empty in He. destruct (columns (valid p)); [discriminate |].
    destruct (rows (valid p)); [discriminate | discriminate]. }
  assert (Hrow : forall r, In r (rows (valid p)) ->
             exists x y,
               cell r "latitude" = VFloat (Fin x)
               /\ cell r "longitude" = VFloat (Fin y)
               /\ (inject_Z (-90) <= x)%Q /\ (x <= inject_Z 90)%Q
               /\ (inject_Z (-180) <= y)%Q /\ (y <= inject_Z 180)%Q).
  { intros r Hr. rewrite Hrows in Hr. apply in_map_iff in Hr.
    destruct Hr as (r0 & <- & Hr0). apply filter_In in Hr0.
    destruct Hr0 as [Hr0 Hsv]. unfold survives in Hsv.
    apply andb_true_iff in Hsv. destruct Hsv as [S1 S2].
    apply in_range_spec in S1, S2.
    destruct S1 as (x & Ex & X1 & X2). destruct S2 as (y & Ey & Y1 & Y2).
    exists x, y.
    assert (L1 : has_label r0 "latitude" = false).
    { rewrite has_label_labels, (well_formed_labels df r0 Hwf Hr0).
      exact Hc1. }
    assert (L2 : has_label r0 "longitude" = false).
    { rewrite has_label_labels, (well_formed_labels df r0 Hwf Hr0).
      exact Hc2. }
    unfold augmented. rewrite !cell_after_absent by assumption.
    rewrite Ex, Ey. repeat split; try assumption; reflexivity. }
  destruct (series_mean_bounds (lo := inject_Z (-90)) (hi := inject_Z 90)
              (vs := column_values (valid p) "latitude"))
    as (x & Ex & X1 & X2).
  { unfold column_values. destruct (rows (valid p)); [contradiction |].
    discriminate. }
  { unfold column_values. apply Forall_forall. intros v Hv.
    apply in_map_iff in Hv. destruct Hv as (r & <- & Hr).
    destruct (Hrow r Hr) as (x & y & E1 & _ & X1 & X2 & _). eauto. }
  destruct (series_mean_bounds (lo := inject_Z (-180)) (hi := inject_Z 180)
              (vs := column_values (valid p) "longitude"))
    as (y & Ey & Y1 & Y2).
  { unfold column_values. destruct (rows (valid p)); [contradiction |].
    discriminate. }
  { unfold column_values. apply Forall_forall. intros v Hv.
    apply in_map_iff in Hv. destruct Hv as (r & <- & Hr).
    destruct (Hrow r Hr) as (x' & y & _ & E2 & _ & _ & Y1 & Y2). eauto. }
  exists x, y. rewrite Ex in Hlat. rewrite Ey in Hlon.
  injection Hlat as Hlat. injection Hlon as Hlon.
  destruct (center m) as [cx cy]. cbn [fst snd] in *. subst cx cy.
  auto 10.
Qed.

End Centre.

(** ** More on the page *)

Lemma ui_bind_In_now {A B} (m : ui A) (k : A -> ui B) (e : event) :
  In e (fst m) -> In e (fst (ui_bind m k)).
Proof.
  destruct m as [log [a | x]]; simpl; [| auto].
  destruct (k a) as [log' r]. simpl. intros H. apply in_or_app. auto.
Qed.

Lemma ui_bind_In_later {A B} (m : ui A) (k : A -> ui B) (a : A) (e : event) :
  snd m = Ok a -> In e (fst (k a)) -> In e (fst (ui_bind m k)).
Proof.
  destruct m as [log [a' | x]]; simpl; intros H; [| discriminate].
  injection H as ->. destruct (k a) as [log' r]. simpl.
  intros H. apply in_or_app. auto.
Qed.

Section PageMore.
Context {conv : Conv}.

(** X13.  With both files missing the page goes through: it shows the two
    warnings, a total of 0, dashes for the two averages, no postal column,
    the world map at [20, 0] with zoom 2, and two previews that say there is
    no valid row. *)
Theorem main_without_files (fs : string -> file) (cluster fast_csv : bool) :
  fs PATH_URL_CSV = Missing -> fs PATH_STORE_CSV = Missing ->
  main fs cluster fast_csv
  = ([Markdown main_header;
      Sidebar [Header "⚙️ Map Settings";
               Checkbox "Cluster locations" cluster;
               Checkbox "High-speed for large CSVs (FastMarkerCluster)"
                        fast_csv];
      Warning "URL Data file not found at: Spoutro August 2025 1(in).csv";
      Warning "Store Data file not found at: Gerzeny_store.csv";
      Column 1 [Metric "Total Locations" (Grouped 0)];
      Column 2 [Metric "Avg Latitude" (Text "—")];
      Column 3 [Metric "Avg Longitude" (Text "—")];
      Column 4 [Metric "Unique Postal Codes" (Text "Not found")];
      Markdown "### 📍 Locations";
      Spinner "Rendering map..." [];
      StFolium {| center := (Fin 20, Fin 0); zoom_start := 2;
                  controls := [] |} 640;
      Markdown "### 🧭 Postal Code Summary";
      Info "No postal code column detected. Use a column like 'postal', 'zip', 'zipcode', 'post_code', or 'pincode'.";
      Expander "📊 URL Data (valid rows)"
               [Info "No valid rows in URL Data."];
      Expander "📊 Store Data (valid rows)"
               [Info "No valid rows in Store Data."]],
     Ok tt).
Proof.
  intros H1 H2. unfold main, load. rewrite H1, H2. reflexivity.
Qed.

(** X14.  When both files are CSVs, the total the page shows is the sum of the
    two valid counts. *)
Theorem main_total_locations
        (fs : string -> file) (cluster fast_csv : bool)
        (d1 d2 : DataFrame) (u s : parsed) :
  fs PATH_URL_CSV = Csv d1 -> fs PATH_STORE_CSV = Csv d2 ->
  parse_csv (Csv d1) = Ok u -> parse_csv (Csv d2) = Ok s ->
  In (Column 1 [Metric "Total Locations"
                       (Grouped (valid_count u + valid_count s))])
     (fst (main fs cluster fast_csv)).
Proof.
  intros H1 H2 Hu Hs. unfold main, load. rewrite H1, H2.
  cbn [PATH_URL_CSV PATH_STORE_CSV String.eqb Ascii.eqb Bool.eqb negb
       andb path_exists].
  rewrite Hu, Hs.
  eapply ui_bind_In_later; [reflexivity |].
  eapply ui_bind_In_later; [reflexivity |].
  eapply ui_bind_In_later; [reflexivity |].
  eapply ui_bind_In_later; [reflexivity |].
  cbv zeta. apply ui_bind_In_now.
  rewrite <- (valid_count_is_len d1 Hu), <- (valid_count_is_len d2 Hs).
  left. reflexivity.
Qed.

End PageMore.

(** ** The averages of the page *)

Lemma df_get_single (df : DataFrame) (c : string) :
  filter (String.eqb c) (columns df) = [c] ->
  df_get df c
  = Some {| columns := [c];
            rows := map (fun r => map (pair c) (values_at r c)) (rows df) |}.
Proof.
  intros H.
  assert (M : mem c (columns df) = true).
  { apply mem_In.
    assert (Hin : In c (filter (String.eqb c) (columns df)))
      by (rewrite H; left; reflexivity).
    apply filter_In in Hin. tauto. }
  unfold df_get, select. cbn [find]. rewrite M. cbn [negb flat_map].
  rewrite H. cbn [app]. do 2 f_equal.
  apply map_ext. intros r. apply app_nil_r.
Qed.

Lemma df_get_absent (df : DataFrame) (c : string) :
  mem c (columns df) = false -> df_get df c = None.
Proof.
  intros H. unfold df_get, select. cbn [find]. rewrite H. reflexivity.
Qed.

Lemma cell_of_pairs (r : row) (c : string) :
  cell (map (pair c) (values_at r c)) c = cell r c.
Proof.
  unfold cell. rewrite values_at_pairs, String.eqb_refl. reflexivity.
Qed.

Lemma column_mean_single (c : string) (rs : list row) :
  column_mean {| columns := [c]; rows := rs |} c
  = series_mean (map (fun r => cell r c) rs).
Proof.
  unfold column_mean. cbn [columns rows filter].
  rewrite String.eqb_refl. reflexivity.
Qed.

(** X16.  The average the page shows is taken over both frames: once there is a
    row, and the URL frame has one column of the coordinate, the page shows
    the mean of that column over the rows of both frames when the store
    frame has such a column too, and over the URL rows alone when the store
    frame has none; the one error it can end with is the error of the
    mean. *)
Theorem average_metric_over_both
        (label c : string) (total : Z) (url_df store_df : DataFrame) :
  total <> 0 ->
  filter (String.eqb c) (columns url_df) = [c] ->
  (filter (String.eqb c) (columns store_df) = [c] ->
   average_metric label c total url_df store_df
   = match series_mean (column_values url_df c ++ column_values store_df c)
     with
     | Ok m => ([Metric label (Float6 m)], Ok tt)
     | Raise e => ([], Raise e)
     end)
  /\ (mem c (columns store_df) = false ->
      average_metric label c total url_df store_df
      = match series_mean (column_values url_df c) with
        | Ok m => ([Metric label (Float6 m)], Ok tt)
        | Raise e => ([], Raise e)
        end).
Proof.
  intros Ht Hu. apply Z.eqb_neq in Ht.
  unfold average_metric. rewrite Ht, (@df_get_single url_df c Hu).
  split; intros Hs.
  - rewrite (@df_get_single store_df c Hs). cbn [not_none flat_map app].
    assert (SL : same_labels [c] [c] = true).
    { unfold same_labels.
      destruct (list_eq_dec string_dec [c] [c]); congruence. }
    unfold pd_concat. cbn [forallb columns]. rewrite SL.
    cbn [andb lift ui_bind flat_map rows].
    rewrite app_nil_r, column_mean_single, map_app, !map_map.
    unfold column_values.
    rewrite !(map_ext _ (fun r => cell r c) (fun r => cell_of_pairs r c)).
    destruct (series_mean _); reflexivity.
  - rewrite (@df_get_absent store_df c Hs). cbn [not_none flat_map app].
    unfold pd_concat. cbn [forallb lift ui_bind flat_map rows columns].
    rewrite app_nil_r, column_mean_single, !map_map.
    unfold column_values.
    rewrite !(map_ext _ (fun r => cell r c) (fun r => cell_of_pairs r c)).
    destruct (series_mean _); reflexivity.
Qed.

Lemma average_metric_over_both_witness :
  average_metric "Avg Latitude" "latitude" 2
                 (point_layer 0 0) (point_layer 10 10)
  = ([Metric "Avg Latitude" (Float6 (Fin 5))], Ok tt).
Proof.
  destruct (@average_metric_over_both
              "Avg Latitude" "latitude" 2
              (point_layer 0 0) (point_layer 10 10)) as [H _].
  - discriminate.
  - reflexivity.
  - rewrite H; reflexivity.
Defined.

(** ** The tooltip of a loaded record *)

Section LoadedRows.
Context {conv : Conv}.

Lemma loaded_row_fields (df : DataFrame) (p : parsed) (r : row) :
  well_formed df = true ->
  mem "__lat" (columns df) = false ->
  mem "__lon" (columns df) = false ->
  mem "latitude" (columns df) = false ->
  mem "longitude" (columns df) = false ->
  parse_csv (Csv df) = Ok p ->
  In r (rows (valid p)) ->
  exists (r0 : row) (x y : Q),
    In r0 (rows df)
    /\ r = r0 ++ [("latitude", VFloat (Fin x)); ("longitude", VFloat (Fin y))]
    /\ values_at r "latitude" = [VFloat (Fin x)]
    /\ values_at r "longitude" = [VFloat (Fin y)]
    /\ (inject_Z (-90) <= x)%Q /\ (x <= inject_Z 90)%Q
    /\ (inject_Z (-180) <= y)%Q /\ (y <= inject_Z 180)%Q.
Proof.
  intros Hwf Hs1 Hs2 Hc1 Hc2 Hp Hr.
  assert (He : df_empty (valid p) = false).
  { destruct (df_empty (valid p)) eqn:E; [| reflexivity].
    pose proof (valid_empty_count df Hp E) as H0.
    rewrite (valid_count_is_len df Hp) in H0. unfold len in H0.
    destruct (rows (valid p)); [destruct Hr | discriminate]. }
  destruct (valid_nonempty_resolved df Hp He) as (a & b & Ha & Hb).
  destruct (valid_frame_shape df Hwf Hs1 Hs2 Hp Ha Hb) as [_ Hrows].
  rewrite Hrows in Hr. apply in_map_iff in Hr.
  destruct Hr as (r0 & <- & Hr0). apply filter_In in Hr0.
  destruct Hr0 as [Hr0 Hsv]. unfold survives in Hsv.
  apply andb_true_iff in Hsv. destruct Hsv as [S1 S2].
  apply in_range_spec in S1, S2.
  destruct S1 as (x & Ex & X1 & X2). destruct S2 as (y & Ey & Y1 & Y2).
  exists r0, x, y. unfold augmented. rewrite Ex, Ey.
  assert (L1 : ~ In "latitude" (labels r0)).
  { rewrite (well_formed_labels df r0 Hwf Hr0). apply mem_false. exact Hc1. }
  assert (L2 : ~ In "longitude" (labels r0)).
  { rewrite (well_formed_labels df r0 Hwf Hr0). apply mem_false. exact Hc2. }
  rewrite !values_at_concat.
  rewrite (values_at_absent r0 "latitude" L1).
  rewrite (values_at_absent r0 "longitude" L2).
  repeat split; try assumption; reflexivity.
Qed.

End LoadedRows.

(** ** The fast layer of a loaded frame *)

Section FastLoaded.
Context {conv : Conv}.

(** The points [FastMarkerCluster] keeps of rows that hold one number
    under each canonical name. *)
Lemma fast_points (l : list row) :
  Forall (fun r => exists x y : Q,
              values_at r "latitude" = [VFloat (Fin x)]
              /\ values_at r "longitude" = [VFloat (Fin y)]) l ->
  mapM fast_point
       (map (fun r =>
               map snd
                   (flat_map (fun k => map (pair k) (values_at r k))
                             ["latitude"; "longitude"])) l)
  = Ok (map (fun r => [cell r "latitude"; cell r "longitude"]) l).
Proof.
  induction 1 as [| r l (x & y & V1 & V2) _ IH]; [reflexivity |].
  cbn [map mapM]. rewrite IH. cbn [flat_map]. unfold cell.
  rewrite V1, V2. reflexivity.
Qed.

Lemma loaded_fast_layer
      (df : DataFrame) (p : parsed) (color layer_name : string)
      (postal_col name_col : option string) :
  clean df -> parse_csv (Csv df) = Ok p ->
  add_layer (valid p) color layer_name true true postal_col name_col
  = Ok {| group_name := layer_name;
          children :=
            if df_empty (valid p) then []
            else [FastMarkerCluster
                    (map (fun r => [cell r "latitude"; cell r "longitude"])
                         (rows (valid p)))
                    (layer_name ++ " Fast")%string] |}.
Proof.
  intros (Hwf & Hs1 & Hs2 & Hc1 & Hc2) Hp. unfold add_layer.
  destruct (df_empty (valid p)) eqn:He; [reflexivity |].
  destruct (valid_nonempty_resolved df Hp He) as (a & b & Ha & Hb).
  destruct (valid_columns_canonical df Hp Ha Hb) as [K1 K2].
  apply mem_In in K1, K2.
  cbn [andb]. unfold select. cbn [find]. rewrite K1, K2. cbn [negb bind].
  unfold to_list. cbn [rows]. rewrite map_map.
  rewrite fast_points; [reflexivity |].
  apply Forall_forall. intros r Hr.
  destruct (loaded_row_fields df r Hwf Hs1 Hs2 Hc1 Hc2 Hp Hr)
    as (r0 & x & y & _ & _ & V1 & V2 & _).
  eauto.
Qed.

(** X7.  With both settings on, every frame the loader returns for a CSV
    as [read_csv] parses it, with no column named latitude, longitude,
    __lat or __lon, can be drawn, folium's check of every point included.
    The layer is empty when no row is valid; otherwise it holds one
    [FastMarkerCluster] whose points are the pairs of the canonical fields
    of the rows, in the order of the rows: one point for each valid row,
    each with its latitude in [-90, 90] and its longitude in
    [-180, 180].  No popup is built on this path. *)
Theorem fast_layer_of_loaded
        (df : DataFrame) (p : parsed) (color layer_name : string)
        (postal_col name_col : option string) :
  clean df -> parse_csv (Csv df) = Ok p ->
  add_layer (valid p) color layer_name true true postal_col name_col
  = Ok {| group_name := layer_name;
          children :=
            if df_empty (valid p) then []
            else [FastMarkerCluster
                    (map (fun r => [cell r "latitude"; cell r "longitude"])
                         (rows (valid p)))
                    (layer_name ++ " Fast")%string] |}
  /\ Z.of_nat (List.length (rows (valid p))) = valid_count p
  /\ (df_empty (valid p) = true -> valid_count p = 0)
  /\ Forall (fun r => exists x y : Q,
                 cell r "latitude" = VFloat (Fin x)
                 /\ cell r "longitude" = VFloat (Fin y)
                 /\ (inject_Z (-90) <= x)%Q /\ (x <= inject_Z 90)%Q
                 /\ (inject_Z (-180) <= y)%Q /\ (y <= inject_Z 180)%Q)
            (rows (valid p)).
Proof.
  intros C Hp. split; [apply (loaded_fast_layer _ _ _ _ C Hp) |].
  split; [rewrite (valid_count_is_len df Hp); reflexivity |].
  split; [intros He; exact (valid_empty_count df Hp He) |].
  destruct C as (Hwf & Hs1 & Hs2 & Hc1 & Hc2).
  apply Forall_forall. intros r Hr.
  destruct (loaded_row_fields df r Hwf Hs1 Hs2 Hc1 Hc2 Hp Hr)
    as (r0 & x & y & _ & _ & V1 & V2 & R).
  exists x, y. unfold cell. rewrite V1, V2. auto.
Qed.

End FastLoaded.


(** ** The detailed layer of a file with the columns Latitude, Longitude *)



Section DetailedLayer.
Context {conv : Conv}.



End DetailedLayer.

(** ** The further properties at examples *)

Lemma fast_layer_of_loaded_witness :
  clean example_csv
  /\ exists p,
       parse_csv (conv := decimal_conv) (Csv example_csv) = Ok p
       /\ add_layer (conv := decimal_conv) (valid p)
                    "green" "URL Data (Green)" true true None None
          = Ok {| group_name := "URL Data (Green)";
                  children :=
                    [FastMarkerCluster
                       [[VFloat (Fin 10); VFloat (Fin 20)]]
                       "URL Data (Green) Fast"] |}.
Proof.
  assert (C : clean example_csv) by (repeat split; reflexivity).
  split; [exact C |].
  eexists. split; [reflexivity |].
  exact (proj1 (fast_layer_of_loaded
                  (conv := decimal_conv) (df := example_csv)
                  "green" "URL Data (Green)" None None C eq_refl)).
Defined.

(** The layer of the record (A) of the example, with the fast setting
    off. *)
Lemma add_layer_detailed_needs_popups_witness :
  df_empty example_layer = false
  /\ has_label example_record "Latitude" = false
  /\ is_ok (add_layer (conv := decimal_conv) example_layer
                      "green" "URL Data (Green)" true false
                      None (Some "name")) = false.
Proof.
  split; [reflexivity |]. split; [reflexivity |].
  apply (proj2 (proj1 (add_layer_detailed_needs_popups
                         (conv := decimal_conv))
                      example_layer "green" "URL Data (Green)" true
                      None (Some "name") eq_refl)
               example_record (or_introl eq_refl) eq_refl).
Defined.

Lemma build_map_detailed_needs_capitalised_witness :
  has_label example_record "Latitude" = false
  /\ is_ok (build_map (conv := decimal_conv) example_layer empty_frame
                      true false None None (Some "name") None) = false.
Proof.
  split; [reflexivity |].
  apply (build_map_detailed_needs_capitalised
           (conv := decimal_conv) example_layer empty_frame true false
           None None (Some "name") None example_record).
  - reflexivity.
  - left. split; [reflexivity | left; reflexivity].
  - reflexivity.
Defined.

Lemma build_map_center_store_witness :
  exists m s,
    build_map (conv := decimal_conv) empty_frame (point_layer 10 10)
              true false None None None None = Ok m
    /\ select (point_layer 10 10) ["latitude"; "longitude"] = Ok s
    /\ column_mean s "latitude" = Ok (fst (center m))
    /\ center m = (Fin 10, Fin 10).
Proof.
  eexists.
  edestruct (build_map_center_store
               (conv := decimal_conv) empty_frame (point_layer 10 10)
               true false None None None None) as (s & H1 & H2 & _).
  - reflexivity.
  - reflexivity.
  - reflexivity.
  - exists s. split; [reflexivity |]. split; [exact H1 |].
    split; [exact H2 | reflexivity].
Defined.

Lemma loaded_map_center_on_globe_witness :
  exists p m (x y : Q),
    parse_csv (conv := decimal_conv) (Csv (point_csv 0 0)) = Ok p
    /\ build_map (conv := decimal_conv) (valid p) empty_frame true false
                 None None None None = Ok m
    /\ center m = (Fin x, Fin y)
    /\ (inject_Z (-90) <= x)%Q /\ (x <= inject_Z 90)%Q.
Proof.
  do 2 eexists.
  edestruct (@loaded_map_center_on_globe
               decimal_conv (point_csv 0 0) empty_frame)
    with (cluster := true) (fast_csv := false)
         (postal1 := @None string) (postal2 := @None string)
         (name1 := @None string) (name2 := @None string)
    as (x & y & Hc & X1 & X2 & _);
    try reflexivity.
  exists x, y. split; [reflexivity |]. split; [reflexivity |].
  split; [exact Hc |]. split; [exact X1 | exact X2].
Defined.

Lemma main_without_files_witness :
  snd (main (conv := decimal_conv) (fun _ => Missing) true false) = Ok tt
  /\ List.length
       (fst (main (conv := decimal_conv) (fun _ => Missing) true false))
     = 15%nat.
Proof.
  rewrite (main_without_files (conv := decimal_conv) (fun _ => Missing)
                              true false eq_refl eq_refl).
  split; reflexivity.
Defined.

Lemma main_total_locations_witness :
  In (Column 1 [Metric "Total Locations" (Grouped 2)])
     (fst (main (conv := decimal_conv)
                (files (Csv (point_csv 0 0)) (Csv (point_csv 10 10)))
                true false)).
Proof.
  apply (main_total_locations
           (conv := decimal_conv)
           (files (Csv (point_csv 0 0)) (Csv (point_csv 10 10)))
           true false (d1 := point_csv 0 0) (d2 := point_csv 10 10)
           eq_refl eq_refl eq_refl eq_refl).
Defined.

Lemma tooltip_html_with_coordinates_witness :
  tooltip_html (conv := decimal_conv) example_record None (Some "name")
  = Ok [Lit "<b>"; Str (Scalar (VStr "A")); Lit "</b><br>";
        Lit "Latitude: "; Fixed6 (Fin 10);
        Lit ", Longitude: "; Fixed6 (Fin 20)].
Proof.
  assert (Hnd : NoDup (labels example_record))
    by (repeat constructor; simpl; intuition discriminate).
  exact (tooltip_html_with_coordinates
           (conv := decimal_conv) example_record None (Some "name")
           Hnd eq_refl eq_refl).
Defined.


(** ** When the page goes through *)

Lemma snd_ui_bind {A B} (m : ui A) (k : A -> ui B) :
  snd (ui_bind m k)
  = match snd m with
    | Ok a => snd (k a)
    | Raise e => Raise e
    end.
Proof.
  destruct m as [log [a | e]]; simpl; [| reflexivity].
  destruct (k a). reflexivity.
Qed.

Lemma snd_within {A} (wrap : list event -> event) (body : ui A) :
  snd (within wrap body) = snd body.
Proof. unfold within. destruct body. reflexivity. Qed.

Lemma fin_values (vs : list value) :
  Forall (fun v => exists q, v = VFloat (Fin q)) vs ->
  exists qs, vs = map (fun q => VFloat (Fin q)) qs.
Proof.
  induction 1 as [| v vs (q & ->) _ (qs & ->)].
  - exists []. reflexivity.
  - exists (q :: qs). reflexivity.
Qed.

Lemma series_mean_fin (qs : list Q) :
  exists m, series_mean (map (fun q => VFloat (Fin q)) qs) = Ok m.
Proof.
  unfold series_mean. rewrite mapM_as_number_fin. cbn [bind].
  destruct (filter (fun x => negb (isnan x)) (map Fin qs)); eauto.
Qed.

(** The three ways a frame pair can hold a coordinate column. *)
Lemma average_metric_cases
      (label c : string) (total : Z) (url_df store_df : DataFrame) :
  total <> 0 ->
  (filter (String.eqb c) (columns url_df) = [c]
   \/ (mem c (columns url_df) = false /\ rows url_df = [])) ->
  (filter (String.eqb c) (columns store_df) = [c]
   \/ (mem c (columns store_df) = false /\ rows store_df = [])) ->
  (mem c (columns url_df) = false -> mem c (columns store_df) = false ->
   False) ->
  average_metric label c total url_df store_df
  = match series_mean (column_values url_df c ++ column_values store_df c)
    with
    | Ok m => ([Metric label (Float6 m)], Ok tt)
    | Raise e => ([], Raise e)
    end.
Proof.
  intros Ht Hu Hs Hboth. apply Z.eqb_neq in Ht.
  assert (SL : same_labels [c] [c] = true).
  { unfold same_labels. destruct (list_eq_dec string_dec [c] [c]); congruence. }
  unfold average_metric. rewrite Ht.
  destruct Hu as [Hu | [Hu Ru]]; destruct Hs as [Hs | [Hs Rs]].
  - rewrite (@df_get_single url_df c Hu), (@df_get_single store_df c Hs).
    cbn [not_none flat_map app].
    unfold pd_concat. cbn [forallb columns]. rewrite SL.
    cbn [andb lift ui_bind flat_map rows].
    rewrite app_nil_r, column_mean_single, map_app, !map_map.
    unfold column_values.
    rewrite !(map_ext _ (fun r => cell r c) (fun r => cell_of_pairs r c)).
    destruct (series_mean _); reflexivity.
  - rewrite (@df_get_single url_df c Hu), (@df_get_absent store_df c Hs).
    cbn [not_none flat_map app].
    unfold pd_concat. cbn [forallb lift ui_bind flat_map rows columns].
    rewrite app_nil_r, column_mean_single, !map_map.
    unfold column_values. rewrite Rs. cbn [map]. rewrite app_nil_r.
    rewrite !(map_ext _ (fun r => cell r c) (fun r => cell_of_pairs r c)).
    destruct (series_mean _); reflexivity.
  - rewrite (@df_get_absent url_df c Hu), (@df_get_single store_df c Hs).
    cbn [not_none flat_map app].
    unfold pd_concat. cbn [forallb lift ui_bind flat_map rows columns].
    rewrite app_nil_r, column_mean_single, !map_map.
    unfold column_values. rewrite Ru. cbn [map app].
    rewrite !(map_ext _ (fun r => cell r c) (fun r => cell_of_pairs r c)).
    destruct (series_mean _); reflexivity.
  - contradiction (Hboth Hu Hs).
Qed.

Section Rendered.
Context {conv : Conv}.

Lemma loaded_column (df : DataFrame) (p : parsed) (c : string) :
  clean df -> parse_csv (Csv df) = Ok p ->
  c = "latitude" \/ c = "longitude" ->
  (filter (String.eqb c) (columns (valid p)) = [c]
   \/ (mem c (columns (valid p)) = false /\ rows (valid p) = []))
  /\ exists qs, column_values (valid p) c = map (fun q => VFloat (Fin q)) qs.
Proof.
  intros (Hwf & Hs1 & Hs2 & Hc1 & Hc2) Hp Hc.
  destruct (detect_lat_lon df) as [[a b] |] eqn:E.
  - destruct (parse_csv_resolved df E) as (p' & Hp' & Ha & Hb & _).
    assert (p' = p) by congruence. subst p'.
    destruct (valid_frame_shape df Hwf Hs1 Hs2 Hp Ha Hb) as [Hcols _].
    split.
    + left. rewrite Hcols, filter_app.
      destruct Hc as [-> | ->].
      * rewrite (filter_eqb_absent _ _ Hc1). reflexivity.
      * rewrite (filter_eqb_absent _ _ Hc2). reflexivity.
    + apply fin_values. unfold column_values. apply Forall_forall.
      intros v Hv. apply in_map_iff in Hv. destruct Hv as (r & <- & Hr).
      destruct (loaded_row_fields df r Hwf Hs1 Hs2 Hc1 Hc2 Hp Hr)
        as (r0 & x & y & _ & _ & V1 & V2 & _).
      unfold cell. destruct Hc as [-> | ->]; [rewrite V1 | rewrite V2]; eauto.
  - rewrite (parse_csv_unresolved df E) in Hp. injection Hp as <-.
    split; [right; split; reflexivity | exists []; reflexivity].
Qed.

Lemma average_metric_loaded
      (label c : string) (d1 d2 : DataFrame) (u s : parsed) :
  clean d1 -> clean d2 ->
  parse_csv (Csv d1) = Ok u -> parse_csv (Csv d2) = Ok s ->
  c = "latitude" \/ c = "longitude" ->
  snd (average_metric label c (len (valid u) + len (valid s))
                      (valid u) (valid s)) = Ok tt.
Proof.
  intros C1 C2 Hu Hs Hc.
  destruct (Z.eq_dec (len (valid u) + len (valid s)) 0) as [Z0 | Z0].
  - unfold average_metric. rewrite Z0. reflexivity.
  - destruct (@loaded_column d1 u c C1 Hu Hc) as [K1 [q1 V1]].
    destruct (@loaded_column d2 s c C2 Hs Hc) as [K2 [q2 V2]].
    rewrite (@average_metric_cases label c _ (valid u) (valid s) Z0 K1 K2).
    + rewrite V1, V2, <- map_app.
      destruct (series_mean_fin (q1 ++ q2)) as [m ->]. reflexivity.
    + intros M1 M2.
      destruct K1 as [K1 | [_ R1]].
      { assert (H : In c (filter (String.eqb c) (columns (valid u))))
          by (rewrite K1; left; reflexivity).
        apply filter_In in H. destruct H as [H _].
        apply mem_In in H. congruence. }
      destruct K2 as [K2 | [_ R2]].
      { assert (H : In c (filter (String.eqb c) (columns (valid s))))
          by (rewrite K2; left; reflexivity).
        apply filter_In in H. destruct H as [H _].
        apply mem_In in H. congruence. }
      apply Z0. unfold len. rewrite R1, R2. reflexivity.
Qed.

Lemma preview_ok (label empty_text : string) (df : DataFrame) (ok bad : Z) :
  snd (preview label empty_text df ok bad) = Ok tt.
Proof. unfold preview. destruct (df_empty df); reflexivity. Qed.

Lemma column4_ok (postal1 postal2 : option string) (u s : DataFrame) :
  snd (if truthy postal1 || truthy postal2 then
         match postal_series postal1 u ++ postal_series postal2 s with
         | [] => emit (Metric "Unique Postal Codes" (Text "0"))
         | series_list =>
             emit (Metric "Unique Postal Codes"
                          (NUnique (List.concat series_list)))
         end
       else emit (Metric "Unique Postal Codes" (Text "Not found")))
  = Ok tt.
Proof.
  destruct (truthy postal1 || truthy postal2); [| reflexivity].
  destruct (postal_series postal1 u ++ postal_series postal2 s); reflexivity.
Qed.

Lemma summary_ok (postal1 postal2 : option string) (u s : DataFrame) :
  snd (if truthy postal1 || truthy postal2 then
         match map dropna_astype_str
                   (postal_series postal1 u ++ postal_series postal2 s) with
         | [] => emit (Info "No postal codes detected in the provided CSVs.")
         | series => emit (BarChart 20 (List.concat series))
         end
       else
         emit (Info "No postal code column detected. Use a column like 'postal', 'zip', 'zipcode', 'post_code', or 'pincode'."))
  = Ok tt.
Proof.
  destruct (truthy postal1 || truthy postal2); [| reflexivity].
  destruct (map dropna_astype_str
                (postal_series postal1 u ++ postal_series postal2 s));
    reflexivity.
Qed.

Lemma main_result
      (fs : string -> file) (cluster fast_csv : bool)
      (d1 d2 : DataFrame) (u s : parsed) :
  clean d1 -> clean d2 ->
  fs PATH_URL_CSV = Csv d1 -> fs PATH_STORE_CSV = Csv d2 ->
  parse_csv (Csv d1) = Ok u -> parse_csv (Csv d2) = Ok s ->
  snd (main fs cluster fast_csv)
  = match build_map (valid u) (valid s) cluster fast_csv
                    (postal_col u) (postal_col s) (name_col u) (name_col s)
    with
    | Ok _ => Ok tt
    | Raise e => Raise e
    end.
Proof.
  intros C1 C2 H1 H2 Hu Hs.
  pose proof (@average_metric_loaded "Avg Latitude" "latitude" d1 d2 u s
                                     C1 C2 Hu Hs (or_introl eq_refl)) as A1.
  pose proof (@average_metric_loaded "Avg Longitude" "longitude" d1 d2 u s
                                     C1 C2 Hu Hs (or_intror eq_refl)) as A2.
  unfold main, load. rewrite H1, H2.
  cbn [PATH_URL_CSV PATH_STORE_CSV String.eqb Ascii.eqb Bool.eqb negb
       andb path_exists].
  rewrite Hu, Hs.
  rewrite snd_ui_bind. cbn [emit snd].
  rewrite snd_ui_bind, snd_within.
  replace (snd (emit (Header "⚙️ Map Settings") ;;;
                emit (Checkbox "Cluster locations" cluster) ;;;
                emit (Checkbox "High-speed for large CSVs (FastMarkerCluster)"
                               fast_csv)))
    with (@Ok unit tt) by reflexivity.
  rewrite snd_ui_bind. cbn [lift snd].
  rewrite snd_ui_bind. cbn [lift snd]. cbv zeta.
  rewrite snd_ui_bind, snd_within. cbn [emit snd].
  rewrite snd_ui_bind, snd_within, A1.
  rewrite snd_ui_bind, snd_within, A2.
  rewrite snd_ui_bind, snd_within, column4_ok.
  rewrite snd_ui_bind. cbn [emit snd].
  rewrite snd_ui_bind, snd_within. cbn [lift snd].
  destruct (build_map (valid u) (valid s) cluster fast_csv
                      (postal_col u) (postal_col s) (name_col u) (name_col s))
    as [m | e]; [| reflexivity].
  rewrite snd_ui_bind. cbn [emit snd].
  rewrite snd_ui_bind. cbn [emit snd].
  rewrite snd_ui_bind, summary_ok.
  rewrite snd_ui_bind, preview_ok.
  apply preview_ok.
Qed.

Lemma main_rendered_if_map
      (fs : string -> file) (cluster fast_csv : bool)
      (d1 d2 : DataFrame) (u s : parsed) (m : Map) :
  clean d1 -> clean d2 ->
  fs PATH_URL_CSV = Csv d1 -> fs PATH_STORE_CSV = Csv d2 ->
  parse_csv (Csv d1) = Ok u -> parse_csv (Csv d2) = Ok s ->
  build_map (valid u) (valid s) cluster fast_csv
            (postal_col u) (postal_col s) (name_col u) (name_col s) = Ok m ->
  snd (main fs cluster fast_csv) = Ok tt
  /\ In (StFolium m 640) (fst (main fs cluster fast_csv)).
Proof.
  intros C1 C2 H1 H2 Hu Hs Em.
  pose proof (@main_result fs cluster fast_csv d1 d2 u s
                           C1 C2 H1 H2 Hu Hs) as R.
  pose proof (@average_metric_loaded "Avg Latitude" "latitude" d1 d2 u s
                                     C1 C2 Hu Hs (or_introl eq_refl)) as A1.
  pose proof (@average_metric_loaded "Avg Longitude" "longitude" d1 d2 u s
                                     C1 C2 Hu Hs (or_intror eq_refl)) as A2.
  rewrite R, Em. split; [reflexivity |].
  unfold main, load. rewrite H1, H2.
  cbn [PATH_URL_CSV PATH_STORE_CSV String.eqb Ascii.eqb Bool.eqb negb
       andb path_exists].
  rewrite Hu, Hs.
  eapply ui_bind_In_later; [reflexivity |].
  eapply ui_bind_In_later; [reflexivity |].
  eapply ui_bind_In_later; [reflexivity |].
  eapply ui_bind_In_later; [reflexivity |].
  cbv zeta.
  eapply ui_bind_In_later; [reflexivity |].
  eapply ui_bind_In_later; [rewrite snd_within; exact A1 |].
  eapply ui_bind_In_later; [rewrite snd_within; exact A2 |].
  eapply ui_bind_In_later; [rewrite snd_within; apply column4_ok |].
  eapply ui_bind_In_later; [reflexivity |].
  eapply ui_bind_In_later; [rewrite snd_within; exact Em |].
  apply ui_bind_In_now. left. reflexivity.
Qed.

(** X19.  For two CSV files as [read_csv] parses them, with no column named
    latitude, longitude, __lat or __lon, the map is the one step of the
    page that can fail: the page goes through, and shows the map, exactly
    when [build_map] returns for the two loaded frames.  The totals, the
    averages, the postal metric, the bar chart and the previews never
    raise. *)
Theorem main_renders_iff_map
        (fs : string -> file) (cluster fast_csv : bool)
        (d1 d2 : DataFrame) (u s : parsed) :
  clean d1 -> clean d2 ->
  fs PATH_URL_CSV = Csv d1 -> fs PATH_STORE_CSV = Csv d2 ->
  parse_csv (Csv d1) = Ok u -> parse_csv (Csv d2) = Ok s ->
  rendered (main fs cluster fast_csv)
  <-> is_ok (build_map (valid u) (valid s) cluster fast_csv
                       (postal_col u) (postal_col s)
                       (name_col u) (name_col s)) = true.
Proof.
  intros C1 C2 H1 H2 Hu Hs.
  pose proof (@main_result fs cluster fast_csv d1 d2 u s
                           C1 C2 H1 H2 Hu Hs) as R.
  unfold rendered.
  destruct (build_map (valid u) (valid s) cluster fast_csv
                      (postal_col u) (postal_col s) (name_col u) (name_col s))
    as [m | e] eqn:Em; cbn [is_ok].
  - split; [reflexivity |]. intros _.
    destruct (@main_rendered_if_map fs cluster fast_csv d1 d2 u s m
                                    C1 C2 H1 H2 Hu Hs Em) as [K1 K2].
    split; [exact K1 | eauto].
  - rewrite R. split; [| discriminate]. intros [H _]. discriminate.
Qed.

Lemma fold_num_add_fin (qs : list Q) (a : Q) :
  exists s, fold_left num_add (map Fin qs) (Fin a) = Fin s.
Proof.
  revert a. induction qs as [| q qs IH]; intros a.
  - exists a. reflexivity.
  - cbn [map fold_left num_add]. apply IH.
Qed.

Lemma series_mean_fin_nonempty (qs : list Q) :
  qs <> [] ->
  exists m, series_mean (map (fun q => VFloat (Fin q)) qs) = Ok (Fin m).
Proof.
  intros Hne. unfold series_mean. rewrite mapM_as_number_fin. cbn [bind].
  rewrite filter_fin. destruct qs as [| q qs]; [contradiction |].
  destruct (fold_num_add_fin (q :: qs) 0) as [s Es].
  cbn [map] in Es |- *. cbv beta iota. rewrite Es. cbn [num_div]. eauto.
Qed.

Lemma add_layer_fast_ok
      (df : DataFrame) (p : parsed) (color layer_name : string)
      (postal_col name_col : option string) :
  clean df -> parse_csv (Csv df) = Ok p ->
  exists layer,
    add_layer (valid p) color layer_name true true postal_col name_col
    = Ok layer.
Proof.
  intros C Hp. eexists. apply (loaded_fast_layer _ _ _ _ C Hp).
Qed.

(** The centre [build_map] computes from a loaded frame that has a row. *)
Lemma loaded_center (df : DataFrame) (p : parsed) :
  clean df -> parse_csv (Csv df) = Ok p -> df_empty (valid p) = false ->
  exists sel x y,
    select (valid p) ["latitude"; "longitude"] = Ok sel
    /\ column_mean sel "latitude" = Ok (Fin x)
    /\ column_mean sel "longitude" = Ok (Fin y).
Proof.
  intros C Hp He.
  assert (Hne : rows (valid p) <> []).
  { unfold df_empty in He. destruct (columns (valid p)); [discriminate |].
    destruct (rows (valid p)); discriminate. }
  destruct (@loaded_column df p "latitude" C Hp (or_introl eq_refl))
    as [K1 [q1 V1]].
  destruct (@loaded_column df p "longitude" C Hp (or_intror eq_refl))
    as [K2 [q2 V2]].
  destruct K1 as [K1 | [_ R]]; [| contradiction].
  destruct K2 as [K2 | [_ R]]; [| contradiction].
  destruct (select_means (valid p) K1 K2) as (sel & Hsel & M1 & M2).
  assert (N1 : q1 <> []).
  { intros ->. unfold column_values in V1.
    destruct (rows (valid p)); [contradiction | discriminate]. }
  assert (N2 : q2 <> []).
  { intros ->. unfold column_values in V2.
    destruct (rows (valid p)); [contradiction | discriminate]. }
  destruct (series_mean_fin_nonempty N1) as [x Ex].
  destruct (series_mean_fin_nonempty N2) as [y Ey].
  exists sel, x, y. rewrite M1, M2, V1, V2. auto.
Qed.

Lemma build_map_fast_ok (d1 d2 : DataFrame) (u s : parsed)
      (postal1 postal2 name1 name2 : option string) :
  clean d1 -> clean d2 ->
  parse_csv (Csv d1) = Ok u -> parse_csv (Csv d2) = Ok s ->
  exists m,
    build_map (valid u) (valid s) true true postal1 postal2 name1 name2
    = Ok m.
Proof.
  intros C1 C2 Hu Hs.
  destruct (add_layer_fast_ok "green" "URL Data (Green)" postal1 name1
                              C1 Hu)
    as [l1 L1].
  destruct (add_layer_fast_ok "blue" "Store Data (Blue)" postal2 name2
                              C2 Hs)
    as [l2 L2].
  unfold build_map.
  destruct (df_empty (valid u)) eqn:E1.
  - destruct (df_empty (valid s)) eqn:E2; cbn [andb negb];
      [eexists; reflexivity |].
    destruct (loaded_center C2 Hs E2) as (sel & x & y & Hsel & Mx & My).
    rewrite Hsel. cbn [bind]. unfold pd_concat.
    cbn [app forallb flat_map]. rewrite app_nil_r.
    replace {| columns := columns sel; rows := rows sel |} with sel
      by (destruct sel; reflexivity).
    cbn [bind]. rewrite Mx, My. cbn [bind folium_Map isnan orb].
    rewrite L1. cbn [bind]. rewrite L2. cbn [bind]. eauto.
  - cbn [andb negb].
    destruct (loaded_center C1 Hu E1) as (sel & x & y & Hsel & Mx & My).
    rewrite Hsel. cbn [bind]. unfold pd_concat.
    cbn [forallb flat_map]. rewrite app_nil_r.
    replace {| columns := columns sel; rows := rows sel |} with sel
      by (destruct sel; reflexivity).
    cbn [bind]. rewrite Mx, My. cbn [bind folium_Map isnan orb].
    rewrite L1. cbn [bind]. rewrite L2. cbn [bind]. eauto.
Qed.

(** X20.  With both settings on, the page goes through for every pair of CSV
    files as [read_csv] parses them with no column named latitude,
    longitude, __lat or __lon: whatever their other columns and rows are,
    no step raises and the map is shown. *)
Theorem main_fast_renders
        (fs : string -> file) (d1 d2 : DataFrame) :
  clean d1 -> clean d2 ->
  fs PATH_URL_CSV = Csv d1 -> fs PATH_STORE_CSV = Csv d2 ->
  rendered (main fs true true).
Proof.
  intros C1 C2 H1 H2.
  destruct (parse_csv_total d1) as [u Hu].
  destruct (parse_csv_total d2) as [s Hs].
  destruct (build_map_fast_ok (postal_col u) (postal_col s)
                              (name_col u) (name_col s) C1 C2 Hu Hs)
    as [m Em].
  destruct (@main_rendered_if_map fs true true d1 d2 u s m
                                  C1 C2 H1 H2 Hu Hs Em) as [K1 K2].
  split; [exact K1 | eauto].
Qed.

End Rendered.

Lemma main_renders_iff_map_witness :
  clean (point_csv 0 0)
  /\ rendered (main (conv := decimal_conv)
                    (files (Csv (point_csv 0 0)) (Csv (point_csv 10 10)))
                    true false).
Proof.
  assert (C : forall z, clean (point_csv z z))
    by (intros z; repeat split; reflexivity).
  split; [apply C |].
  eapply (proj2 (@main_renders_iff_map
                   decimal_conv
                   (files (Csv (point_csv 0 0)) (Csv (point_csv 10 10)))
                   true false (point_csv 0 0) (point_csv 10 10) _ _
                   (C 0) (C 10) eq_refl eq_refl eq_refl eq_refl)).
  reflexivity.
Defined.

Lemma main_fast_renders_witness :
  clean example_csv
  /\ rendered (main (conv := decimal_conv)
                    (files (Csv example_csv) (Csv (point_csv 10 10)))
                    true true).
Proof.
  assert (C1 : clean example_csv) by (repeat split; reflexivity).
  assert (C2 : clean (point_csv 10 10)) by (repeat split; reflexivity).
  split; [exact C1 |].
  apply (@main_fast_renders
           decimal_conv (files (Csv example_csv) (Csv (point_csv 10 10)))
           example_csv (point_csv 10 10) C1 C2 eq_refl eq_refl).
Defined.
